(** * FluxOps: the training pipeline and the prediction service

    A shallow embedding of [src/function_app/function_app.py],
    [src/ml_pipeline/train_model.py], [src/ml_pipeline/inference.py] and
    [scripts/upload_model_to_azurite.py].

    The repository is glue code over numpy, scikit-learn, joblib and the
    Azure blob SDK.  What those libraries compute is not part of the
    repository, so the library calls of each file are the fields of a
    class that the embedding of the file takes as a parameter; the
    control flow, the arguments passed, the exception handlers and the
    mutations of module and object state are the repository's own and
    are written out here.  Floats are IEEE
    binary64 ([PrimFloat.float]), which is what Python's [float] and
    numpy's [float64] are.  Logging calls are left out: they neither
    change state that the program reads nor alter control flow. *)

From Stdlib Require Import ZArith List Ascii String Floats Strings.Byte Lia.
From stdpp Require Import base option gmap strings pretty list.

Set Warnings "-inexact-float,-register-all".
Local Open Scope Z_scope.

(* ===================================================================== *)
(** * A fragment of the Python runtime *)
(* ===================================================================== *)

Module Py.

(** Exception classes that the code names or that its callees raise.
    Only subclasses of [Exception] appear: [KeyboardInterrupt] and
    [SystemExit] are not failures of a request. *)
Inductive exn_class :=
  | ValueError
  | JSONDecodeError        (* json: subclass of ValueError *)
  | NotFittedError         (* sklearn: subclass of ValueError *)
  | TypeError
  | AttributeError
  | IndexError
  | KeyError
  | EOFError
  | OSError
  | FileNotFoundError      (* subclass of OSError *)
  | FileExistsError        (* subclass of OSError *)
  | IsADirectoryError      (* subclass of OSError *)
  | UnpicklingError
  | ResourceNotFoundError  (* azure.core.exceptions *)
  | ResourceExistsError    (* azure.core.exceptions *)
  | ServiceRequestError    (* azure.core.exceptions *)
  | RuntimeError.

Record exn := Exn { exn_cls : exn_class; exn_msg : string }.

(** [isinstance(e, ValueError)], the test of [except ValueError]. *)
Definition is_ValueError (e : exn) : bool :=
  match exn_cls e with
  | ValueError | JSONDecodeError | NotFittedError => true
  | _ => false
  end.

Inductive result (A : Type) :=
  | Ok (a : A)
  | Raise (e : exn).
Arguments Ok {A} a.
Arguments Raise {A} e.

(** Computations that read and write a state [S] and may raise.  The state
    reached when an exception is raised is kept: Python does not roll
    back assignments made before a [raise]. *)
Definition M (S A : Type) : Type := S -> result A * S.

Definition ret {S A} (a : A) : M S A := fun s => (Ok a, s).
Definition raise {S A} (e : exn) : M S A := fun s => (Raise e, s).
Definition bind {S A B} (c : M S A) (k : A -> M S B) : M S B :=
  fun s => match c s with
           | (Ok a, s') => k a s'
           | (Raise e, s') => (Raise e, s')
           end.
Definition lift {S A} (r : result A) : M S A := fun s => (r, s).
Definition gets {S A} (f : S -> A) : M S A := fun s => (Ok (f s), s).
Definition modify {S} (f : S -> S) : M S unit := fun s => (Ok tt, f s).

(** [try: body  except Exception as e: handler e]. *)
Definition try_except {S A} (body : M S A) (handler : exn -> M S A) : M S A :=
  fun s => match body s with
           | (Ok a, s') => (Ok a, s')
           | (Raise e, s') => handler e s'
           end.

Declare Scope py_scope.
Delimit Scope py_scope with py.
Notation "'let*' x ':=' c 'in' k" := (bind c (fun x => k))
  (at level 10, x name, c at level 100, k at level 200) : py_scope.
Notation "c1 ';;' c2" := (bind c1 (fun _ => c2))
  (at level 100, c2 at level 200, right associativity) : py_scope.

(** Values that [json.loads] produces.  A [VDict] lists the items of the
    decoded dict, whose keys are distinct. *)
Inductive pyval :=
  | VNone
  | VBool (b : bool)
  | VInt (z : Z)
  | VFloat (f : float)
  | VStr (s : string)
  | VList (l : list pyval)
  | VDict (d : list (string * pyval)).

(** [bool(v)]. *)
Definition truthy (v : pyval) : bool :=
  match v with
  | VNone => false
  | VBool b => b
  | VInt z => negb (z =? 0)
  | VFloat f => negb (PrimFloat.eqb f 0%float)
  | VStr s => negb (String.eqb s "")
  | VList l => match l with [] => false | _ => true end
  | VDict d => match d with [] => false | _ => true end
  end.

(** Text is held as the bytes of its UTF-8 encoding (a lone surrogate,
    which a JSON escape can produce, as the three bytes of its code
    point).  A byte of the form 10xxxxxx continues a character; every
    other byte starts one. *)
Definition continues (c : ascii) : bool :=
  match c with
  | Ascii _ _ _ _ _ _ b6 b7 => b7 && negb b6
  end.

(** [len(s)] on a [str]: the number of code points. *)
Fixpoint str_len (s : string) : nat :=
  match s with
  | EmptyString => O
  | String c s' => if continues c then str_len s' else Datatypes.S (str_len s')
  end.

(** [len(v)]: defined on sized values only. *)
Definition py_len (v : pyval) : result Z :=
  match v with
  | VStr s => Ok (Z.of_nat (str_len s))
  | VList l => Ok (Z.of_nat (List.length l))
  | VDict d => Ok (Z.of_nat (List.length d))
  | VNone => Raise (Exn TypeError "object of type 'NoneType' has no len()")
  | VBool _ => Raise (Exn TypeError "object of type 'bool' has no len()")
  | VInt _ => Raise (Exn TypeError "object of type 'int' has no len()")
  | VFloat _ => Raise (Exn TypeError "object of type 'float' has no len()")
  end.

Fixpoint assoc (k : string) (d : list (string * pyval)) : option pyval :=
  match d with
  | [] => None
  | (k', v) :: d' => if String.eqb k k' then Some v else assoc k d'
  end.

(** [v.get(k)]: only a dict has the method; a missing key gives [None]. *)
Definition py_get (v : pyval) (k : string) : result pyval :=
  match v with
  | VDict d => Ok (default VNone (assoc k d))
  | _ => Raise (Exn AttributeError "object has no attribute 'get'")
  end.

(** [xs[i]] on a sequence. *)
Definition index {A} (xs : list A) (i : nat) : result A :=
  match nth_error xs i with
  | Some x => Ok x
  | None => Raise (Exn IndexError "index out of bounds")
  end.

(** [max(xs)] on floats: the first element, replaced by each later one
    that compares greater. *)
Definition py_max_from (m : float) (xs : list float) : float :=
  fold_left (fun acc x => if PrimFloat.ltb acc x then x else acc) xs m.

Definition py_max (xs : list float) : result float :=
  match xs with
  | [] => Raise (Exn ValueError "max() arg is an empty sequence")
  | x :: xs' => Ok (py_max_from x xs')
  end.



End Py.

Import Py.
Local Open Scope py_scope.

Definition bytes := list byte.

(* ===================================================================== *)
(** * function_app.py: the prediction service *)
(* ===================================================================== *)

Module FunctionApp.

(** Calls that leave the process, in the order they were made. *)
Inductive io_event :=
  | IoConnect (connection_string : string)   (* BlobServiceClient.from_connection_string *)
  | IoDownload (container blob : string)     (* blob_client.download_blob().readall() *)
  | IoUnpickle.                              (* joblib.load(tmp_file_path) *)

Record HttpRequest := { req_json : option pyval }.
(** [req_json] is the decoded body, or [None] when the body is not JSON. *)

Record HttpResponse := {
  body : pyval;          (* the value given to json.dumps *)
  mimetype : string;
  status_code : Z
}.

Definition json_response (status : Z) (b : pyval) : HttpResponse :=
  {| body := b; mimetype := "application/json"; status_code := status |}.

Definition error_body (msg : string) : pyval := VDict [("error", VStr msg)].

(** [req.get_json()]. *)
Definition get_json (req : HttpRequest) : result pyval :=
  match req_json req with
  | Some v => Ok v
  | None => Raise (Exn ValueError "HTTP request does not contain valid JSON data")
  end.

(** An object with the two methods the handler calls on a model. *)
Record estimator (ndarray : Type) := {
  est_predict : ndarray -> result (list Z);
  est_predict_proba : ndarray -> result (list (list float))
}.
Arguments est_predict {ndarray} _ _.
Arguments est_predict_proba {ndarray} _ _.

Inductive payload (ndarray : Type) :=
  | Estimator (m : estimator ndarray)
  | Opaque.                    (* any object without those methods *)
Arguments Estimator {ndarray} m.
Arguments Opaque {ndarray}.

(** What unpickling gives, when it is not [None]: an object the load
    builds, or an object that is there without the load ([True], a small
    integer, the empty tuple, a class or a function pickled by
    reference), which is the same object at every load; [name] tells
    such objects apart. *)
Inductive unpickled (ndarray : Type) :=
  | Existing (name : nat) (p : payload ndarray)
  | Built (p : payload ndarray).
Arguments Existing {ndarray} name p.
Arguments Built {ndarray} p.

(** The identity of an object: the [n]-th object the process built, or
    one of the objects that are there without being built. *)
Inductive ident :=
  | Made (n : nat)
  | Named (name : nat).

(** ** The libraries the service calls *)

Class Platform := {
  Storage : Type;              (* the content of the storage account *)
  Client : Type;
  ndarray : Type;
  (** [BlobServiceClient.from_connection_string]. *)
  from_connection_string : string -> result Client;
  (** [get_blob_client(container, blob).download_blob().readall()], against
      the current content of the storage account. *)
  download_blob : Client -> string -> string -> Storage -> result bytes;
  (** [np.array(features).reshape(1, -1)]. *)
  np_array_reshape : pyval -> result ndarray;
  (** What [joblib.load] finds in a file: an exception, Python's [None]
      ([Ok None]) or an object. *)
  joblib_load : bytes -> result (option (unpickled ndarray))
}.

Section Service.

Context `{Platform}.

(** A Python reference: [None], or an object with its identity. *)
Inductive pyobj :=
  | PyNone
  | PyObj (oid : ident) (p : payload ndarray).

(** ** Process and platform state *)

Record World := {
  cached_model : pyobj;             (* the module global _cached_model *)
  environ : gmap string string;     (* os.environ *)
  storage : Storage;                (* the blob service, owned by others *)
  tmp_files : gmap nat bytes;       (* files made by NamedTemporaryFile(delete=False) *)
  next_tmp : nat;
  next_oid : nat;
  io_trace : list io_event
}.

Definition set_cached_model (o : pyobj) (w : World) : World :=
  {| cached_model := o; environ := environ w; storage := storage w;
     tmp_files := tmp_files w; next_tmp := next_tmp w; next_oid := next_oid w;
     io_trace := io_trace w |}.

Definition set_tmp_files (f : gmap nat bytes) (w : World) : World :=
  {| cached_model := cached_model w; environ := environ w; storage := storage w;
     tmp_files := f; next_tmp := next_tmp w; next_oid := next_oid w;
     io_trace := io_trace w |}.

Definition emit (ev : io_event) (w : World) : World :=
  {| cached_model := cached_model w; environ := environ w; storage := storage w;
     tmp_files := tmp_files w; next_tmp := next_tmp w; next_oid := next_oid w;
     io_trace := io_trace w ++ [ev] |}.

(** [tempfile.NamedTemporaryFile(delete=False, suffix='.pkl')]: a new,
    empty file under a name not used before.  Creating, writing and
    unlinking a local temporary file are taken to succeed. *)
Definition named_temporary_file : M World nat :=
  fun w =>
    let t := next_tmp w in
    (Ok t,
     {| cached_model := cached_model w; environ := environ w; storage := storage w;
        tmp_files := <[t := []]> (tmp_files w); next_tmp := Datatypes.S t;
        next_oid := next_oid w; io_trace := io_trace w |}).

(** The object a successful [joblib.load] returns: [None] is the one
    [None], an object that is there without the load is that object, and
    an object the load builds is a new one. *)
Definition allocate (v : option (unpickled ndarray)) : M World pyobj :=
  fun w =>
    match v with
    | None => (Ok PyNone, w)
    | Some (Existing name p) => (Ok (PyObj (Named name) p), w)
    | Some (Built p) =>
        (Ok (PyObj (Made (next_oid w)) p),
         {| cached_model := cached_model w; environ := environ w; storage := storage w;
            tmp_files := tmp_files w; next_tmp := next_tmp w;
            next_oid := Datatypes.S (next_oid w); io_trace := io_trace w |})
    end.

(** [not connection_string] for the value of [os.environ.get]. *)
Definition unset (v : option string) : bool :=
  match v with
  | None => true
  | Some s => String.eqb s ""
  end.

(** ** [load_model_from_blob] *)

(** The body of the [try]: everything after the cache test.  The
    temporary file holds exactly the downloaded bytes when [joblib.load]
    reads it, and it is left behind when the download or the load
    raises. *)
Definition load_from_storage : M World pyobj :=
  let* connection_string := gets (fun w => environ w !! "STORAGE_CONNECTION_STRING") in
  if unset connection_string then
    raise (Exn ValueError "STORAGE_CONNECTION_STRING not set")
  else
    let cs := default "" connection_string in
    modify (emit (IoConnect cs));;
    let* blob_service_client := lift (from_connection_string cs) in
    let* tmp := named_temporary_file in
    modify (emit (IoDownload "models" "model_v1.pkl"));;
    let* st := gets storage in
    let* data := lift (download_blob blob_service_client "models" "model_v1.pkl" st) in
    modify (fun w => set_tmp_files (<[tmp := data]> (tmp_files w)) w);;
    modify (emit IoUnpickle);;
    let* loaded := lift (joblib_load data) in
    let* obj := allocate loaded in
    modify (set_cached_model obj);;
    modify (fun w => set_tmp_files (delete tmp (tmp_files w)) w);;
    gets cached_model.

Definition load_model_from_blob : M World pyobj :=
  let* cached := gets cached_model in
  match cached with
  | PyObj _ _ => ret cached
  | PyNone => try_except load_from_storage (fun e => raise e)
  end.

(** ** [model_updated], the blob trigger *)

Definition model_updated (w : World) : World := set_cached_model PyNone w.

(** ** [predict] *)

(** [model.predict(X)] and [model.predict_proba(X)]: attribute lookup,
    then the call. *)
Definition call_predict (model : pyobj) (X : ndarray) : result (list Z) :=
  match model with
  | PyObj _ (Estimator m) => est_predict m X
  | PyObj _ Opaque => Raise (Exn AttributeError "object has no attribute 'predict'")
  | PyNone => Raise (Exn AttributeError "'NoneType' object has no attribute 'predict'")
  end.

Definition call_predict_proba (model : pyobj) (X : ndarray) : result (list (list float)) :=
  match model with
  | PyObj _ (Estimator m) => est_predict_proba m X
  | PyObj _ Opaque => Raise (Exn AttributeError "object has no attribute 'predict_proba'")
  | PyNone => Raise (Exn AttributeError "'NoneType' object has no attribute 'predict_proba'")
  end.

Definition prediction_result (prediction : Z) (p0 p1 confidence : float) : pyval :=
  VDict [("prediction", VInt prediction);
         ("probability", VDict [("class_0", VFloat p0); ("class_1", VFloat p1)]);
         ("confidence", VFloat confidence)].

(** The body of the handler's [try]. *)
Definition predict_body (req : HttpRequest) : M World HttpResponse :=
  let* req_body := lift (get_json req) in
  let* features := lift (py_get req_body "features") in
  if negb (truthy features) then
    ret (json_response 400 (error_body "Missing 'features' in request body"))
  else
    let* n := lift (py_len features) in
    if negb (n =? 10) then
      ret (json_response 400 (error_body "Expected 10 features"))
    else
      let* model := load_model_from_blob in
      let* X := lift (np_array_reshape features) in
      let* predictions := lift (call_predict model X) in
      let* prediction := lift (index predictions 0) in
      let* probabilities := lift (call_predict_proba model X) in
      let* probability := lift (index probabilities 0) in
      let* p0 := lift (index probability 0) in
      let* p1 := lift (index probability 1) in
      let* confidence := lift (py_max probability) in
      ret (json_response 200 (prediction_result prediction p0 p1 confidence)).

(** The two [except] clauses, in the order they are tried. *)
Definition predict_handler (e : exn) : HttpResponse :=
  if is_ValueError e then
    json_response 400 (error_body ("Invalid input: " +:+ exn_msg e))
  else
    json_response 500 (error_body "Internal server error").

Definition predict (req : HttpRequest) (w : World) : HttpResponse * World :=
  match predict_body req w with
  | (Ok resp, w') => (resp, w')
  | (Raise e, w') => (predict_handler e, w')
  end.

(** ** [health_check] and [model_info] *)

Definition health_check (req : HttpRequest) : HttpResponse :=
  json_response 200
    (VDict [("status", VStr "healthy");
            ("service", VStr "FluxOps ML Pipeline");
            ("version", VStr "1.0.0")]).

(** The body of the [try] of [model_info]. *)
Definition model_info_body : M World HttpResponse :=
  let* storage_account :=
    gets (fun w => default "N/A" (environ w !! "STORAGE_ACCOUNT_NAME")) in
  let info :=
    VDict [("model_name", VStr "Random Forest Classifier");
           ("model_version", VStr "v1");
           ("storage_account", VStr storage_account);
           ("container", VStr "models");
           ("blob_name", VStr "model_v1.pkl");
           ("features_required", VInt 10);
           ("classes", VList [VInt 0; VInt 1])] in
  ret (json_response 200 info).

Definition model_info (req : HttpRequest) (w : World) : HttpResponse * World :=
  match model_info_body w with
  | (Ok resp, w') => (resp, w')
  | (Raise e, w') => (json_response 500 (error_body "Internal server error"), w')
  end.

(** ** Vocabulary of the statements about the service *)

Definition set_storage (st : Storage) (w : World) : World :=
  {| cached_model := cached_model w; environ := environ w; storage := st;
     tmp_files := tmp_files w; next_tmp := next_tmp w; next_oid := next_oid w;
     io_trace := io_trace w |}.

(** What a load reads: the cache slot, the environment, the storage
    account and the next object identity. *)
Definition same_inputs (wa wb : World) : Prop :=
  cached_model wa = cached_model wb /\ environ wa = environ wb /\
  storage wa = storage wb /\ next_oid wa = next_oid wb.

(** A features value the handler turns away: falsy, or sized with a
    length other than ten. *)
Definition rejected (features : pyval) : Prop :=
  truthy features = false \/ exists n, py_len features = Ok n /\ n <> 10.




(** What the handler computes from the features once the loader has
    handed it a model: the part of [predict] after the load. *)
Definition infer (features : pyval) (model : pyobj) : result HttpResponse :=
  match np_array_reshape features with
  | Raise e => Raise e
  | Ok X =>
  match call_predict model X with
  | Raise e => Raise e
  | Ok predictions =>
  match index predictions 0 with
  | Raise e => Raise e
  | Ok prediction =>
  match call_predict_proba model X with
  | Raise e => Raise e
  | Ok probabilities =>
  match index probabilities 0 with
  | Raise e => Raise e
  | Ok probability =>
  match index probability 0 with
  | Raise e => Raise e
  | Ok p0 =>
  match index probability 1 with
  | Raise e => Raise e
  | Ok p1 =>
  match py_max probability with
  | Raise e => Raise e
  | Ok confidence => Ok (json_response 200 (prediction_result prediction p0 p1 confidence))
  end end end end end end end end.

(** A request that passes the handler's two checks. *)
Definition accepted (req : HttpRequest) (features : pyval) : Prop :=
  exists req_body,
    get_json req = Ok req_body /\
    py_get req_body "features" = Ok features /\
    truthy features = true /\
    py_len features = Ok 10.

(** The names under which temporary files are made were never used. *)
Definition tmp_names_fresh (w : World) : Prop :=
  forall t, (next_tmp w <= t)%nat -> tmp_files w !! t = None.

End Service.

End FunctionApp.

(* ===================================================================== *)
(** * train_model.py: the training pipeline *)
(* ===================================================================== *)

Module TrainModel.

(** ** Frames and arrays *)

Inductive cell :=
  | CFloat (f : float)
  | CInt (z : Z).

Definition Series := list cell.

(** A pandas frame, row by row; every row has one cell per column. *)
Record DataFrame := { columns : list string; rows : list (list cell) }.

(** What an estimator accepts as [X]. *)
Inductive arraylike :=
  | OfFrame (df : DataFrame)
  | OfArray (a : list (list float)).

Fixpoint traverse {A B} (f : A -> result B) (xs : list A) : result (list B) :=
  match xs with
  | [] => Ok []
  | x :: xs' =>
      match f x with
      | Raise e => Raise e
      | Ok y => match traverse f xs' with
                | Raise e => Raise e
                | Ok ys => Ok (y :: ys)
                end
      end
  end.

(** [X[:, j]]. *)
Definition column (j : nat) (X : list (list float)) : result (list float) :=
  traverse (fun row => index row j) X.

Fixpoint position (name : string) (cols : list string) : option nat :=
  match cols with
  | [] => None
  | c :: cols' =>
      if String.eqb name c then Some O
      else option_map Datatypes.S (position name cols')
  end.

(** [pd.DataFrame(X, columns=names)]. *)
Definition df_of_array (X : list (list float)) (names : list string) : result DataFrame :=
  if forallb (fun row => Nat.eqb (List.length row) (List.length names)) X then
    Ok {| columns := names; rows := map (map CFloat) X |}
  else
    Raise (Exn ValueError "Shape of passed values does not match the columns").

(** [df[name] = values]. *)
Definition df_setitem (name : string) (values : Series) (df : DataFrame) : result DataFrame :=
  if negb (Nat.eqb (List.length values) (List.length (rows df))) then
    Raise (Exn ValueError "Length of values does not match length of index")
  else
    match position name (columns df) with
    | Some i =>
        Ok {| columns := columns df;
              rows := zip_with (fun row v => <[i := v]> row) (rows df) values |}
    | None =>
        Ok {| columns := columns df ++ [name];
              rows := zip_with (fun row v => row ++ [v]) (rows df) values |}
    end.

(** [df[name]]. *)
Definition df_getitem (name : string) (df : DataFrame) : result Series :=
  match position name (columns df) with
  | Some i => traverse (fun row => index row i) (rows df)
  | None => Raise (Exn KeyError name)
  end.

(** [df.drop(name, axis=1)]. *)
Definition df_drop (name : string) (df : DataFrame) : result DataFrame :=
  match position name (columns df) with
  | Some i => Ok {| columns := delete i (columns df); rows := map (delete i) (rows df) |}
  | None => Raise (Exn KeyError (name +:+ " not found in axis"))
  end.

(** ** Estimators and metrics *)

Record hyperparams := {
  n_estimators : Z;
  max_depth : Z;
  random_state : Z;
  n_jobs : Z
}.

(** What [self.model] and a pickle file can hold: [None], a
    [RandomForestClassifier] (fitted once [fit] has returned) or some
    other object. *)
Inductive model_obj (Forest : Type) :=
  | ObjNone
  | ObjForest (hp : hyperparams) (fitted : option Forest)
  | ObjOther.
Arguments ObjNone {Forest}.
Arguments ObjForest {Forest} hp fitted.
Arguments ObjOther {Forest}.

Record Metrics (Report : Type) := {
  m_accuracy : float;
  m_classification_report : Report;
  m_confusion_matrix : list (list Z);
  m_timestamp : string
}.
Arguments m_accuracy {Report} _.
Arguments m_classification_report {Report} _.
Arguments m_confusion_matrix {Report} _.
Arguments m_timestamp {Report} _.

(** ** The libraries the pipeline calls *)

Class Libs := {
  RngState : Type;                 (* numpy's global generator *)
  Forest : Type;                   (* the state [fit] computes *)
  Report : Type;                   (* classification_report(..., output_dict=True) *)
  (** [np.random.seed(s)] and one standard normal draw. *)
  np_random_seed : Z -> RngState;
  np_random_normal : RngState -> float * RngState;
  (** [fit(X, y)] on a [RandomForestClassifier] built with [hp]. *)
  rf_fit : hyperparams -> DataFrame -> Series -> result Forest;
  rf_predict : Forest -> arraylike -> result (list Z);
  rf_predict_proba : Forest -> arraylike -> result (list (list float));
  (** [predict] and [predict_proba] on a forest whose [fit] has not
      returned: which exception they raise (or what they return) depends
      on how far [fit] got. *)
  rf_predict_unfitted : hyperparams -> arraylike -> result (list Z);
  rf_predict_proba_unfitted : hyperparams -> arraylike -> result (list (list float));
  (** [train_test_split(X, y, test_size=, random_state=, stratify=)]:
      [(X_train, X_test, y_train, y_test)]. *)
  train_test_split :
    DataFrame -> Series -> float -> Z -> Series ->
    result (DataFrame * DataFrame * Series * Series);
  accuracy_score : Series -> list Z -> result float;
  classification_report_dict : Series -> list Z -> result Report;
  classification_report_text : Series -> list Z -> result string;
  confusion_matrix : Series -> list Z -> result (list (list Z));
  (** The bytes [joblib.dump] writes for an object and what [joblib.load]
      makes of the bytes of a file. *)
  joblib_dumps : model_obj Forest -> result bytes;
  joblib_loads : bytes -> result (model_obj Forest);
  (** [json.dump(metrics, f, indent=2)]; [None] is the empty dict. *)
  json_dumps : option (Metrics Report) -> result string;
  (** What [joblib.dump] and [json.dump] had written when they raised. *)
  joblib_dumps_partial : model_obj Forest -> bytes;
  json_dumps_partial : option (Metrics Report) -> string;
  (** [open(path, 'w')] and [open(path, 'wb')], given the directories
      and the files there are: the exception raised, if any (the path is
      a directory, its directory is missing, ...). *)
  os_open_w : string -> gset string -> gmap string bytes -> option exn;
  (** [os.makedirs(path, exist_ok=True)]: the directories afterwards. *)
  os_makedirs : string -> gset string -> gmap string bytes -> result (gset string)
}.

(** [os.path.join(a, b)] on POSIX. *)
Definition starts_with_sep (s : string) : bool :=
  match s with
  | String c _ => Ascii.eqb c "/"%char
  | EmptyString => false
  end.

Fixpoint ends_with_sep (s : string) : bool :=
  match s with
  | EmptyString => false
  | String c EmptyString => Ascii.eqb c "/"%char
  | String _ s' => ends_with_sep s'
  end.

Definition path_join (a b : string) : string :=
  if starts_with_sep b then b
  else if String.eqb a "" || ends_with_sep a then a +:+ b
  else a +:+ "/" +:+ b.

(** The last character of a path. *)
Fixpoint last_char (s : string) : option ascii :=
  match s with
  | EmptyString => None
  | String c EmptyString => Some c
  | String _ s' => last_char s'
  end.

Section Pipeline.

Context `{Libs}.

(** ** Process state *)

(** The library calls of the pipeline, with their arguments. *)
Inductive call :=
  | CallSeed (seed : Z)
  | CallRandn (n k : Z)
  | CallSplit (X : DataFrame) (y : Series) (test_size : float) (random_state : Z)
              (stratify : Series)
  | CallFit (hp : hyperparams) (X : DataFrame) (y : Series)
  | CallPredict (m : model_obj Forest) (X : arraylike)
  | CallAccuracy (y_true : Series) (y_pred : list Z)
  | CallReport (y_true : Series) (y_pred : list Z) (output_dict : bool)
  | CallConfusion (y_true : Series) (y_pred : list Z)
  | CallDump (m : model_obj Forest) (path : string)
  | CallOpenWrite (path : string)
  | CallJsonDump (ms : option (Metrics Report)).

(** A call that was made, and the exception it raised if it did. *)
Definition event : Type := call * option exn.

Record Sys := {
  rng : RngState;
  files : gmap string bytes;
  dirs : gset string;
  wall_clock : string;             (* datetime.now().isoformat() *)
  calls : list event               (* oldest first *)
}.

Definition set_rng (g : RngState) (s : Sys) : Sys :=
  {| rng := g; files := files s; dirs := dirs s; wall_clock := wall_clock s;
     calls := calls s |}.
Definition set_files (f : gmap string bytes) (s : Sys) : Sys :=
  {| rng := rng s; files := f; dirs := dirs s; wall_clock := wall_clock s;
     calls := calls s |}.
Definition set_dirs (d : gset string) (s : Sys) : Sys :=
  {| rng := rng s; files := files s; dirs := d; wall_clock := wall_clock s;
     calls := calls s |}.
Definition log_call (ev : event) (s : Sys) : Sys :=
  {| rng := rng s; files := files s; dirs := dirs s; wall_clock := wall_clock s;
     calls := calls s ++ [ev] |}.

(** The fields of an [MLPipeline] object. *)
Record MLPipeline := {
  model_dir : string;
  log_dir : string;
  model : model_obj Forest;
  metrics : option (Metrics Report)
}.

Definition set_model (m : model_obj Forest) (p : MLPipeline) : MLPipeline :=
  {| model_dir := model_dir p; log_dir := log_dir p; model := m; metrics := metrics p |}.
Definition set_metrics (m : option (Metrics Report)) (p : MLPipeline) : MLPipeline :=
  {| model_dir := model_dir p; log_dir := log_dir p; model := model p; metrics := m |}.

(** A method runs on its object and the process state. *)
Definition Method (A : Type) : Type := M (MLPipeline * Sys) A.

Definition self_ {A} (f : MLPipeline -> A) : Method A := gets (fun st => f (fst st)).
Definition sys_ {A} (f : Sys -> A) : Method A := gets (fun st => f (snd st)).
Definition update_self (f : MLPipeline -> MLPipeline) : Method unit :=
  modify (fun st => (f (fst st), snd st)).
Definition update_sys (f : Sys -> Sys) : Method unit :=
  modify (fun st => (fst st, f (snd st))).

Definition outcome {A} (r : result A) : option exn :=
  match r with
  | Ok _ => None
  | Raise e => Some e
  end.

(** A library call: it is recorded with its outcome, and its result or
    its exception is the caller's. *)
Definition invoke {A} (c : call) (r : result A) : Method A :=
  update_sys (log_call (c, outcome r));;
  lift r.

(** [os.makedirs(path, exist_ok=True)]. *)
Definition makedirs (path : string) : M Sys unit :=
  let* d := gets dirs in
  let* fs := gets files in
  let* d' := lift (os_makedirs path d fs) in
  modify (set_dirs d').

(** [MLPipeline(model_dir, log_dir)]: an object comes back only when
    both directories could be made. *)
Definition init (model_dir log_dir : string) : M Sys MLPipeline :=
  makedirs model_dir;;
  makedirs log_dir;;
  ret {| model_dir := model_dir; log_dir := log_dir; model := ObjNone; metrics := None |}.

(** ** [generate_sample_data] *)

Fixpoint draws (k : nat) (g : RngState) : list float * RngState :=
  match k with
  | O => ([], g)
  | Datatypes.S k' =>
      let (x, g1) := np_random_normal g in
      let (xs, g2) := draws k' g1 in
      (x :: xs, g2)
  end.

Fixpoint draw_rows (n k : nat) (g : RngState) : list (list float) * RngState :=
  match n with
  | O => ([], g)
  | Datatypes.S n' =>
      let (row, g1) := draws k g in
      let (rest, g2) := draw_rows n' k g1 in
      (row :: rest, g2)
  end.

(** [np.random.randn(n, k)]: an [n] by [k] array filled row by row from
    the global generator. *)
Definition randn (n k : Z) : Method (list (list float)) :=
  invoke (CallRandn n k)
    (if (n <? 0) || (k <? 0)
     then Raise (Exn ValueError "negative dimensions are not allowed")
     else Ok tt);;
  let* g := sys_ rng in
  let (X, g') := draw_rows (Z.to_nat n) (Z.to_nat k) g in
  update_sys (set_rng g');;
  ret X.

(** [(a + b > 0).astype(int)], elementwise. *)
Definition positive_sum (a b : float) : Z :=
  if PrimFloat.ltb 0%float (a + b)%float then 1 else 0.

Definition feature_names : list string :=
  map (fun i : nat => "feature_" +:+ pretty i) (seq 0 10).

Definition generate_sample_data (n_samples : Z) : Method DataFrame :=
  invoke (CallSeed 42) (Ok tt);;
  update_sys (set_rng (np_random_seed 42));;
  let* X := randn n_samples 10 in
  let* x0 := lift (column 0 X) in
  let* x1 := lift (column 1 X) in
  let y := zip_with positive_sum x0 x1 in
  let* df := lift (df_of_array X feature_names) in
  lift (df_setitem "target" (map CInt y) df).

(** ** [train_model] *)

Definition train_model (X_train : DataFrame) (y_train : Series) (kwargs : gmap string Z)
  : Method (model_obj Forest) :=
  let hp := {| n_estimators := default 100 (kwargs !! "n_estimators");
               max_depth := default 10 (kwargs !! "max_depth");
               random_state := 42;
               n_jobs := -1 |} in
  update_self (set_model (ObjForest hp None));;
  let* fitted := invoke (CallFit hp X_train y_train) (rf_fit hp X_train y_train) in
  update_self (set_model (ObjForest hp (Some fitted)));;
  self_ model.

(** ** [evaluate_model] *)

(** [m.predict(X)] and [m.predict_proba(X)] on whatever [m] is. *)
Definition obj_predict (m : model_obj Forest) (X : arraylike) : result (list Z) :=
  match m with
  | ObjNone => Raise (Exn AttributeError "'NoneType' object has no attribute 'predict'")
  | ObjOther => Raise (Exn AttributeError "object has no attribute 'predict'")
  | ObjForest hp None => rf_predict_unfitted hp X
  | ObjForest _ (Some f) => rf_predict f X
  end.

Definition obj_predict_proba (m : model_obj Forest) (X : arraylike)
  : result (list (list float)) :=
  match m with
  | ObjNone => Raise (Exn AttributeError "'NoneType' object has no attribute 'predict_proba'")
  | ObjOther => Raise (Exn AttributeError "object has no attribute 'predict_proba'")
  | ObjForest hp None => rf_predict_proba_unfitted hp X
  | ObjForest _ (Some f) => rf_predict_proba f X
  end.

Definition evaluate_model (X_test : DataFrame) (y_test : Series)
  : Method (option (Metrics Report)) :=
  let* m := self_ model in
  let* y_pred := invoke (CallPredict m (OfFrame X_test)) (obj_predict m (OfFrame X_test)) in
  let* accuracy := invoke (CallAccuracy y_test y_pred) (accuracy_score y_test y_pred) in
  let* report :=
    invoke (CallReport y_test y_pred true) (classification_report_dict y_test y_pred) in
  let* conf_matrix :=
    invoke (CallConfusion y_test y_pred) (confusion_matrix y_test y_pred) in
  let* now := sys_ wall_clock in
  update_self (set_metrics (Some {| m_accuracy := accuracy;
                                    m_classification_report := report;
                                    m_confusion_matrix := conf_matrix;
                                    m_timestamp := now |}));;
  invoke (CallReport y_test y_pred false) (classification_report_text y_test y_pred);;
  self_ metrics.

(** ** [save_model] and [save_metrics] *)

(** [joblib.dump(obj, path)]: the file is opened for writing, which
    empties it, before the object is pickled into it; when pickling
    raises, the file keeps what was written until then. *)
Definition joblib_dump (obj : model_obj Forest) (path : string) : Method unit :=
  let* d := sys_ dirs in
  let* fs := sys_ files in
  match os_open_w path d fs with
  | Some e => invoke (CallDump obj path) (Raise e)
  | None =>
      match joblib_dumps obj with
      | Ok data =>
          update_sys (fun s => set_files (<[path := data]> (files s)) s);;
          invoke (CallDump obj path) (Ok tt)
      | Raise e =>
          update_sys (fun s => set_files (<[path := joblib_dumps_partial obj]> (files s)) s);;
          invoke (CallDump obj path) (Raise e)
      end
  end.

Definition save_model (filename : string) : Method string :=
  let* d := self_ model_dir in
  let model_path := path_join d filename in
  let* m := self_ model in
  joblib_dump m model_path;;
  ret model_path.

(** [open(path, 'w')] empties the file before anything is written; when
    [json.dump] raises, the file keeps what was written until then. *)
Definition save_metrics (filename : string) : Method string :=
  let* d := self_ log_dir in
  let metrics_path := path_join d filename in
  let* ds := sys_ dirs in
  let* fs := sys_ files in
  invoke (CallOpenWrite metrics_path)
    (match os_open_w metrics_path ds fs with Some e => Raise e | None => Ok tt end);;
  update_sys (fun s => set_files (<[metrics_path := []]> (files s)) s);;
  let* ms := self_ metrics in
  match json_dumps ms with
  | Ok text =>
      update_sys (fun s => set_files (<[metrics_path := list_byte_of_string text]> (files s)) s);;
      invoke (CallJsonDump ms) (Ok tt)
  | Raise e =>
      update_sys (fun s =>
        set_files (<[metrics_path := list_byte_of_string (json_dumps_partial ms)]> (files s)) s);;
      invoke (CallJsonDump ms) (Raise e)
  end;;
  ret metrics_path.

(** ** [run] *)

Record RunResult := {
  r_model_path : string;
  r_metrics_path : string;
  r_metrics : option (Metrics Report)
}.

Definition run_kwargs : gmap string Z :=
  <["n_estimators" := 100]> (<["max_depth" := 10]> ∅).

Definition run : Method RunResult :=
  let* df := generate_sample_data 1000 in
  let* X := lift (df_drop "target" df) in
  let* y := lift (df_getitem "target" df) in
  let* parts := invoke (CallSplit X y 0.2%float 42 y) (train_test_split X y 0.2%float 42 y) in
  let '(X_train, X_test, y_train, y_test) := parts in
  let* _ := train_model X_train y_train run_kwargs in
  let* _ := evaluate_model X_test y_test in
  let* model_path := save_model "model.pkl" in
  let* metrics_path := save_metrics "metrics.json" in
  let* ms := self_ metrics in
  ret {| r_model_path := model_path; r_metrics_path := metrics_path; r_metrics := ms |}.

(** ** Vocabulary of the statements about the pipeline *)

(** A row of ten features followed by its label. *)
Definition labelled_row (row : list float) : list cell :=
  map CFloat row ++ [CInt (positive_sum (nth 0 row 0%float) (nth 1 row 0%float))].

Definition labelled_frame (X : list (list float)) : DataFrame :=
  {| columns := feature_names ++ ["target"]; rows := map labelled_row X |}.

(** The array [generate_sample_data] draws: it depends on the seed alone. *)
Definition generated (n : Z) : list (list float) :=
  fst (draw_rows (Z.to_nat n) 10 (np_random_seed 42)).

Definition after_generate (n : Z) (st : MLPipeline * Sys) : MLPipeline * Sys :=
  (fst st,
   set_rng (snd (draw_rows (Z.to_nat n) 10 (np_random_seed 42)))
     (log_call (CallRandn n 10, None)
        (set_rng (np_random_seed 42) (log_call (CallSeed 42, None) (snd st))))).

(** The estimator [train_model] builds from its keyword arguments. *)
Definition forest_params (kwargs : gmap string Z) : hyperparams :=
  {| n_estimators := default 100 (kwargs !! "n_estimators");
     max_depth := default 10 (kwargs !! "max_depth");
     random_state := 42;
     n_jobs := -1 |}.

(** What [joblib] promises: the bytes it writes for an object load as an
    object that predicts the same. *)
Definition joblib_roundtrip : Prop :=
  forall m data,
    joblib_dumps m = Ok data ->
    exists m',
      joblib_loads data = Ok m' /\
      forall X, obj_predict m' X = obj_predict m X /\
                obj_predict_proba m' X = obj_predict_proba m X.

(** The features and the labels of the generated frame, as [run] takes
    them apart. *)
Definition features_of (X : list (list float)) : DataFrame :=
  {| columns := feature_names; rows := map (map CFloat) X |}.

Definition labels_of (X : list (list float)) : Series :=
  map (fun row => CInt (positive_sum (nth 0 row 0%float) (nth 1 row 0%float))) X.

(** The six steps of the pipeline. *)
Inductive step :=
  | Generate
  | Split
  | Train
  | Evaluate
  | PersistModel
  | PersistMetrics.

Definition step_of (c : call) : step :=
  match c with
  | CallSeed _ | CallRandn _ _ => Generate
  | CallSplit _ _ _ _ _ => Split
  | CallFit _ _ _ => Train
  | CallPredict _ _ | CallAccuracy _ _ | CallReport _ _ _ | CallConfusion _ _ => Evaluate
  | CallDump _ _ => PersistModel
  | CallOpenWrite _ | CallJsonDump _ => PersistMetrics
  end.

(** The steps of the library calls of a complete run. *)
Definition pipeline_steps : list step :=
  [Generate; Generate; Split; Train;
   Evaluate; Evaluate; Evaluate; Evaluate; Evaluate;
   PersistModel; PersistMetrics; PersistMetrics].

Definition run_hyperparams : hyperparams :=
  {| n_estimators := 100; max_depth := 10; random_state := 42; n_jobs := -1 |}.

(** The split of the 1000 generated samples: a test share of 0.2, seed
    42, stratified by the labels. *)
Definition split_of_generated : result (DataFrame * DataFrame * Series * Series) :=
  train_test_split (features_of (generated 1000)) (labels_of (generated 1000))
    0.2%float 42 (labels_of (generated 1000)).

(** The forest fitted on the training part of that split. *)
Definition trained_on_split (f : Forest) (X_test : DataFrame) (y_test : Series) : Prop :=
  exists X_train y_train,
    split_of_generated = Ok (X_train, X_test, y_train, y_test) /\
    rf_fit run_hyperparams X_train y_train = Ok f.

(** What each call of a run is made with. *)
Definition as_specified (p : MLPipeline) (c : call) : Prop :=
  match c with
  | CallSeed seed => seed = 42
  | CallRandn n k => n = 1000 /\ k = 10
  | CallSplit X y test_size seed stratify =>
      X = features_of (generated 1000) /\ y = labels_of (generated 1000) /\
      test_size = 0.2%float /\ seed = 42 /\ stratify = y
  | CallFit hp X_train y_train =>
      hp = run_hyperparams /\
      exists X_test y_test, split_of_generated = Ok (X_train, X_test, y_train, y_test)
  | CallPredict m X =>
      exists f X_test y_test,
        trained_on_split f X_test y_test /\
        m = ObjForest run_hyperparams (Some f) /\ X = OfFrame X_test
  | CallAccuracy y_true y_pred
  | CallReport y_true y_pred _
  | CallConfusion y_true y_pred =>
      exists f X_test,
        trained_on_split f X_test y_true /\ rf_predict f (OfFrame X_test) = Ok y_pred
  | CallDump m path =>
      path = path_join (model_dir p) "model.pkl" /\
      exists f X_test y_test,
        trained_on_split f X_test y_test /\ m = ObjForest run_hyperparams (Some f)
  | CallOpenWrite path => path = path_join (log_dir p) "metrics.json"
  | CallJsonDump ms =>
      exists report f X_test y_test y_pred,
        ms = Some report /\
        trained_on_split f X_test y_test /\
        rf_predict f (OfFrame X_test) = Ok y_pred /\
        accuracy_score y_test y_pred = Ok (m_accuracy report) /\
        classification_report_dict y_test y_pred = Ok (m_classification_report report) /\
        confusion_matrix y_test y_pred = Ok (m_confusion_matrix report)
  end.

(** The metrics [evaluate_model] stores when model [m] predicts
    [y_pred] for the held-out part at the time [now]. *)
Definition evaluated (m : model_obj Forest) (X_test : DataFrame) (y_test : Series)
    (now : string) (y_pred : list Z) (ms : option (Metrics Report)) : Prop :=
  obj_predict m (OfFrame X_test) = Ok y_pred /\
  exists report,
    ms = Some report /\
    accuracy_score y_test y_pred = Ok (m_accuracy report) /\
    classification_report_dict y_test y_pred = Ok (m_classification_report report) /\
    confusion_matrix y_test y_pred = Ok (m_confusion_matrix report) /\
    m_timestamp report = now.

(** What the library, or the operating system, answers to a call of a
    run that starts in [st]: the exception it raises, if any.  The file
    of the metrics is opened when the file of the model has been
    written. *)
Definition answered (st : MLPipeline * Sys) (ev : event) : Prop :=
  match fst ev with
  | CallSeed _ => snd ev = None
  | CallRandn n k =>
      snd ev = if (n <? 0) || (k <? 0)
               then Some (Exn ValueError "negative dimensions are not allowed")
               else None
  | CallSplit X y test_size seed stratify =>
      snd ev = outcome (train_test_split X y test_size seed stratify)
  | CallFit hp X y => snd ev = outcome (rf_fit hp X y)
  | CallPredict m X => snd ev = outcome (obj_predict m X)
  | CallAccuracy y_true y_pred => snd ev = outcome (accuracy_score y_true y_pred)
  | CallReport y_true y_pred true =>
      snd ev = outcome (classification_report_dict y_true y_pred)
  | CallReport y_true y_pred false =>
      snd ev = outcome (classification_report_text y_true y_pred)
  | CallConfusion y_true y_pred => snd ev = outcome (confusion_matrix y_true y_pred)
  | CallDump m path =>
      snd ev = match os_open_w path (dirs (snd st)) (files (snd st)) with
               | Some e => Some e
               | None => outcome (joblib_dumps m)
               end
  | CallOpenWrite path =>
      exists f X_test y_test data,
        trained_on_split f X_test y_test /\
        joblib_dumps (ObjForest run_hyperparams (Some f)) = Ok data /\
        snd ev = os_open_w path (dirs (snd st))
                   (<[path_join (model_dir (fst st)) "model.pkl" := data]> (files (snd st)))
  | CallJsonDump ms => snd ev = outcome (json_dumps ms)
  end.

(** Every call of a run that starts in [st] returns: the split, the
    fit, the prediction on the held-out part, the three metrics and the
    report for the log, and the writing of the two files.  [f] is the
    fitted forest, [report] the metrics with the time the clock shows,
    [data] and [json] what is written. *)
Definition all_calls_return (st : MLPipeline * Sys) (f : Forest) (report : Metrics Report)
    (data : bytes) (json : string) : Prop :=
  let model_path := path_join (model_dir (fst st)) "model.pkl" in
  let metrics_path := path_join (log_dir (fst st)) "metrics.json" in
  exists X_test y_test y_pred text,
    trained_on_split f X_test y_test /\
    rf_predict f (OfFrame X_test) = Ok y_pred /\
    accuracy_score y_test y_pred = Ok (m_accuracy report) /\
    classification_report_dict y_test y_pred = Ok (m_classification_report report) /\
    confusion_matrix y_test y_pred = Ok (m_confusion_matrix report) /\
    m_timestamp report = wall_clock (snd st) /\
    classification_report_text y_test y_pred = Ok text /\
    os_open_w model_path (dirs (snd st)) (files (snd st)) = None /\
    joblib_dumps (ObjForest run_hyperparams (Some f)) = Ok data /\
    os_open_w metrics_path (dirs (snd st)) (<[model_path := data]> (files (snd st))) = None /\
    json_dumps (Some report) = Ok json.

End Pipeline.

End TrainModel.

(* ===================================================================== *)
(** * inference.py: loading a saved model and predicting with it *)
(* ===================================================================== *)

Module Inference.

Import TrainModel.

Section Inference.

Context `{Libs}.

(** The fields of a [ModelInference] object. *)
Record ModelInference := {
  model_path : string;
  model : model_obj Forest
}.

Definition Method (A : Type) : Type := M (ModelInference * Sys) A.

(** [joblib.load(path)]. *)
Definition joblib_load (path : string) : Method (model_obj Forest) :=
  let* fs := gets (fun st => files (snd st)) in
  match fs !! path with
  | None => raise (Exn FileNotFoundError path)
  | Some data => lift (joblib_loads data)
  end.

Definition load_model : Method unit :=
  try_except
    (let* path := gets (fun st => model_path (fst st)) in
     let* loaded := joblib_load path in
     modify (fun st => ({| model_path := model_path (fst st); model := loaded |}, snd st)))
    (fun e => raise e).

(** [ModelInference(model_path)]: an object comes back only when
    [__init__] returns. *)
Definition init (path : string) : M Sys ModelInference :=
  fun s =>
    match load_model ({| model_path := path; model := ObjNone |}, s) with
    | (Ok _, (self, s')) => (Ok self, s')
    | (Raise e, (_, s')) => (Raise e, s')
    end.

Record Predictions := {
  predictions : list Z;
  probabilities : list (list float)
}.

Definition predict (X : arraylike) : Method Predictions :=
  let* m := gets (fun st => model (fst st)) in
  match m with
  | ObjNone => raise (Exn ValueError "Model not loaded")
  | _ =>
      let* ps := lift (obj_predict m X) in
      let* qs := lift (obj_predict_proba m X) in
      ret {| predictions := ps; probabilities := qs |}
  end.

Record Prediction := {
  prediction : Z;
  probability : list float
}.

(** [np.array(features).reshape(1, -1)] on a list of floats is the array
    with that one row. *)
Definition predict_single (features : list float) : Method Prediction :=
  let X := OfArray [features] in
  let* result := predict X in
  let* p := lift (index (predictions result) 0) in
  let* q := lift (index (probabilities result) 0) in
  ret {| prediction := p; probability := q |}.

(** The prediction part of [ModelInference.predict]. *)
Definition predict_with (m : model_obj Forest) (X : arraylike) : result Predictions :=
  match obj_predict m X with
  | Raise e => Raise e
  | Ok ps =>
      match obj_predict_proba m X with
      | Raise e => Raise e
      | Ok qs => Ok {| predictions := ps; probabilities := qs |}
      end
  end.

End Inference.

End Inference.

(* ===================================================================== *)
(** * scripts/upload_model_to_azurite.py: the upload script *)
(* ===================================================================== *)

Module UploadScript.

Import TrainModel.

(** The requests the script sends through the SDK. *)
Inductive sdk_call :=
  | SdkConnect (connection_string : string)
  | SdkCreateContainer (name : string)
  | SdkUpload (container blob : string) (data : bytes) (overwrite : bool).

(** What the script prints. *)
Inductive line :=
  | Connecting
  | CreatingContainer (name : string)
  | ContainerCreated (name : string)
  | ContainerExists (name : string)
  | Uploading (path container blob : string)
  | Uploaded
  | ContainerLine (name : string)
  | BlobLine (name : string).

Class Azurite := {
  Account : Type;              (* the content of the emulated account *)
  Client : Type;
  from_connection_string : string -> result Client;
  (** [create_container(name)]. *)
  create_container : Client -> string -> Account -> result Account;
  (** [get_blob_client(container, blob).upload_blob(data, overwrite=)]. *)
  upload_blob : Client -> string -> string -> bytes -> bool -> Account -> result Account
}.

(** [needle in text]. *)
Definition contains (needle text : string) : bool :=
  match String.index 0 needle text with
  | Some _ => true
  | None => false
  end.

Definition connection_string : string :=
  "DefaultEndpointsProtocol=http;AccountName=devstoreaccount1;AccountKey=Eby8vdM02xNOcqFlqUwJPLlmEtlCDXJ1OUzFT50uSRZ6IFsuFq2UVErCz4I6tq/K1SZFPTOtr/KBHBeksoGMGw==;BlobEndpoint=http://127.0.0.1:10000/devstoreaccount1;".

Definition container_name : string := "models".
Definition blob_name : string := "model_v1.pkl".

(** [os.path.join(os.path.dirname(__file__), "..", "src", "ml_pipeline",
    "models", "model.pkl")], for the directory the script is in. *)
Definition model_path (script_dir : string) : string :=
  path_join (path_join (path_join (path_join (path_join script_dir "..") "src")
                          "ml_pipeline") "models") "model.pkl".

Section Script.

Context `{Azurite}.

Record Host := {
  account : Account;
  disk : gmap string bytes;                (* local files *)
  stdout : list line;                      (* oldest first *)
  sdk_calls : list (sdk_call * option exn) (* oldest first, with what each raised *)
}.

Definition set_account (a : Account) (h : Host) : Host :=
  {| account := a; disk := disk h; stdout := stdout h; sdk_calls := sdk_calls h |}.

Definition print (l : line) : M Host unit :=
  modify (fun h =>
    {| account := account h; disk := disk h; stdout := stdout h ++ [l];
       sdk_calls := sdk_calls h |}).

(** A request: recorded with its outcome, then returned or raised. *)
Definition request {A} (c : sdk_call) (r : result A) : M Host A :=
  modify (fun h =>
    {| account := account h; disk := disk h; stdout := stdout h;
       sdk_calls := sdk_calls h ++ [(c, match r with Ok _ => None | Raise e => Some e end)] |});;
  lift r.

(** The [try] around [create_container] and its [except]. *)
Definition ensure_container (client : Client) : M Host unit :=
  try_except
    (let* a := gets account in
     let* a' := request (SdkCreateContainer container_name)
                        (create_container client container_name a) in
     modify (set_account a');;
     print (ContainerCreated container_name))
    (fun e =>
       if contains "ContainerAlreadyExists" (exn_msg e)
       then print (ContainerExists container_name)
       else raise e).

(** [open(model_path, "rb")]. *)
Definition open_rb (path : string) : M Host bytes :=
  let* d := gets disk in
  match d !! path with
  | Some data => ret data
  | None => raise (Exn FileNotFoundError path)
  end.

Definition upload (client : Client) (path : string) : M Host unit :=
  print (Uploading path container_name blob_name);;
  let* data := open_rb path in
  let* a := gets account in
  let* a' := request (SdkUpload container_name blob_name data true)
                     (upload_blob client container_name blob_name data true a) in
  modify (set_account a');;
  print Uploaded;;
  print (ContainerLine container_name);;
  print (BlobLine blob_name).

(** The script, top to bottom. *)
Definition main (script_dir : string) : M Host unit :=
  print Connecting;;
  let* client := request (SdkConnect connection_string)
                         (from_connection_string connection_string) in
  print (CreatingContainer container_name);;
  ensure_container client;;
  upload client (model_path script_dir).

(** A request of the upload kind. *)
Definition is_upload (c : sdk_call) : bool :=
  match c with
  | SdkUpload _ _ _ _ => true
  | _ => false
  end.

End Script.

End UploadScript.

(* ===================================================================== *)
(** * Sample platforms and states *)
(* ===================================================================== *)

(** Small stand-ins for the libraries, on which the definitions above
    run to completion.  They are used only to exhibit concrete runs. *)

Module ServiceSamples.

Import FunctionApp.

(** A classifier that answers class 1 with probability 0.75. *)
Definition sample_estimator : estimator (list pyval) :=
  {| est_predict := fun _ => Ok [1];
     est_predict_proba := fun _ => Ok [[0.25%float; 0.75%float]] |}.

(** The pickle of [None] (protocol 4). *)
Definition pickled_none : bytes := [x80; x04; x4e; x2e].

(** The pickle of [True] (protocol 4). *)
Definition pickled_true : bytes := [x80; x04; x88; x2e].

(** Some bytes that unpickle to a model. *)
Definition pickled_model : bytes := [x80; x04; x95].

Fixpoint bytes_eqb (a b : bytes) : bool :=
  match a, b with
  | [], [] => true
  | x :: a', y :: b' => Byte.eqb x y && bytes_eqb a' b'
  | _, _ => false
  end.

(** A storage account is a map from container and blob name to content;
    a missing blob raises [ResourceNotFoundError]; an empty file does not
    unpickle; the pickle of [None] unpickles to [None], the pickle of
    [True] to [True], which no load builds, and anything else to a model
    that the load builds. *)
Definition sample_platform : Platform :=
  {| Storage := gmap (string * string) bytes;
     Client := unit;
     ndarray := list pyval;
     from_connection_string := fun _ => Ok tt;
     download_blob := fun _ container blob (st : gmap (string * string) bytes) =>
       match st !! (container, blob) with
       | Some data => Ok data
       | None => Raise (Exn ResourceNotFoundError "The specified blob does not exist.")
       end;
     np_array_reshape := fun v =>
       Ok (match v with VList l => l | _ => [v] end);
     joblib_load := fun data =>
       if bytes_eqb data [] then Raise (Exn EOFError "Ran out of input")
       else if bytes_eqb data pickled_none then Ok None
       else if bytes_eqb data pickled_true then Ok (Some (Existing 1 Opaque))
       else Ok (Some (Built (Estimator sample_estimator))) |}.

Definition sample_world (env : gmap string string)
    (st : gmap (string * string) bytes) : @World sample_platform :=
  @Build_World sample_platform PyNone env st ∅ 0%nat 0%nat [].

Definition configured : gmap string string :=
  {[ "STORAGE_CONNECTION_STRING" := "UseDevelopmentStorage=true" ]}.

Definition with_blob (data : bytes) : gmap (string * string) bytes :=
  {[ ("models", "model_v1.pkl") := data ]}.

(** A cold process whose storage holds a model. *)
Definition cold_world : @World sample_platform :=
  sample_world configured (with_blob pickled_model).

(** A cold process whose storage holds the pickle of [None]. *)
Definition none_world : @World sample_platform :=
  sample_world configured (with_blob pickled_none).

(** A cold process whose storage holds the pickle of [True]. *)
Definition true_world : @World sample_platform :=
  sample_world configured (with_blob pickled_true).

(** A cold process whose storage has no model blob. *)
Definition blobless_world : @World sample_platform :=
  sample_world configured ∅.

(** A cold process without [STORAGE_CONNECTION_STRING]. *)
Definition unconfigured_world : @World sample_platform :=
  sample_world ∅ (with_blob pickled_model).

Definition request_with (features : pyval) : HttpRequest :=
  {| req_json := Some (VDict [("features", features)]) |}.

Definition ten_numbers : pyval :=
  VList (map (fun z => VInt z) [1; 2; 3; 4; 5; 6; 7; 8; 9; 10]).

Definition ten_strings : pyval :=
  VList (map VStr ["a"; "b"; "c"; "d"; "e"; "f"; "g"; "h"; "i"; "j"]).

(** The euro sign, three bytes in UTF-8, and a text of ten of them. *)
Definition euro : string :=
  String "226"%char (String "130"%char (String "172"%char EmptyString)).

Definition ten_euros : pyval :=
  VStr (euro +:+ euro +:+ euro +:+ euro +:+ euro +:+ euro +:+ euro +:+ euro +:+ euro +:+ euro).

Definition nine_numbers : pyval :=
  VList (map (fun z => VInt z) [1; 2; 3; 4; 5; 6; 7; 8; 9]).

Definition blob_missing : exn :=
  Exn ResourceNotFoundError "The specified blob does not exist.".

Definition sample_model : @pyobj sample_platform :=
  @PyObj sample_platform (Made 0) (Estimator sample_estimator).

(** Whether a computation raised. *)
Definition raised {A} (r : result A) : bool :=
  match r with
  | Ok _ => false
  | Raise _ => true
  end.

(** The process after its first successful load. *)
Definition warm_world : @World sample_platform :=
  snd (@load_model_from_blob sample_platform cold_world).

End ServiceSamples.

Module PipelineSamples.

Import TrainModel.

(** Normal draws are replaced by a cycle of four values. *)
Definition sample_normal (g : nat) : float * nat :=
  (match Nat.modulo g 4 with
   | 0%nat => 0.5%float
   | 1%nat => 1.5%float
   | 2%nat => (-2.0)%float
   | _ => 0.25%float
   end, Datatypes.S g).

Definition is_one (c : cell) : bool :=
  match c with
  | CInt 1 => true
  | _ => false
  end.

Definition count_rows (X : arraylike) : nat :=
  match X with
  | OfFrame df => List.length (rows df)
  | OfArray a => List.length a
  end.

(** The fitted state is the majority label.  As with scikit-learn's
    forests, labels of a single class are accepted; inconsistent lengths
    and empty input are not. *)
Definition sample_fit (hp : hyperparams) (X : DataFrame) (y : Series) : result bool :=
  if negb (Nat.eqb (List.length (rows X)) (List.length y)) then
    Raise (Exn ValueError "Found input variables with inconsistent numbers of samples")
  else if Nat.eqb (List.length y) 0 then
    Raise (Exn ValueError "Found array with 0 sample(s)")
  else
    Ok (Nat.ltb (List.length y) (2 * List.length (filter (fun c => is_one c = true) y))).

Definition sample_predict (f : bool) (X : arraylike) : result (list Z) :=
  Ok (repeat (if f then 1 else 0) (count_rows X)).

Definition sample_predict_proba (f : bool) (X : arraylike) : result (list (list float)) :=
  Ok (repeat (if f then [0%float; 1%float] else [1%float; 0%float]) (count_rows X)).

(** The last fifth of the rows is held out. *)
Definition sample_split (X : DataFrame) (y : Series) (test_size : float)
    (random_state : Z) (stratify : Series)
  : result (DataFrame * DataFrame * Series * Series) :=
  let n := List.length y in
  let k := (n - n / 5)%nat in
  if Nat.ltb n 2 then
    Raise (Exn ValueError "the resulting train set will be empty")
  else
    Ok ({| columns := columns X; rows := take k (rows X) |},
        {| columns := columns X; rows := drop k (rows X) |},
        take k y, drop k y).

Definition agree (c : cell) (z : Z) : bool :=
  match c with
  | CInt z' => z' =? z
  | CFloat _ => false
  end.

Definition sample_accuracy (y_true : Series) (y_pred : list Z) : result float :=
  if forallb (fun b : bool => b) (zip_with agree y_true y_pred)
  then Ok 1%float else Ok 0.5%float.

Definition default_hyperparams : hyperparams :=
  {| n_estimators := 100; max_depth := 10; random_state := 0; n_jobs := 1 |}.

Definition sample_dumps (m : model_obj bool) : result bytes :=
  match m with
  | ObjNone => Ok ServiceSamples.pickled_none
  | ObjForest _ None => Ok [x80; x00]
  | ObjForest _ (Some f) => Ok [x80; x01; if f then x01 else x00]
  | ObjOther => Raise (Exn TypeError "cannot pickle object")
  end.

Definition sample_loads (data : bytes) : result (model_obj bool) :=
  if ServiceSamples.bytes_eqb data ServiceSamples.pickled_none then Ok ObjNone
  else if ServiceSamples.bytes_eqb data [x80; x00] then
    Ok (ObjForest default_hyperparams None)
  else if ServiceSamples.bytes_eqb data [x80; x01; x00] then
    Ok (ObjForest default_hyperparams (Some false))
  else if ServiceSamples.bytes_eqb data [x80; x01; x01] then
    Ok (ObjForest default_hyperparams (Some true))
  else Raise (Exn UnpicklingError "invalid load key").

(** A forest whose [fit] raised while it checked the data has no trees. *)
Definition no_trees : exn :=
  Exn AttributeError "'RandomForestClassifier' object has no attribute 'estimators_'".

(** Opening for writing fails on the empty path and on a directory. *)
Definition sample_open (path : string) (d : gset string) (fs : gmap string bytes)
  : option exn :=
  if String.eqb path "" then Some (Exn FileNotFoundError path)
  else if ends_with_sep path || bool_decide (path ∈ d) then Some (Exn IsADirectoryError path)
  else None.

Definition sample_makedirs (path : string) (d : gset string) (fs : gmap string bytes)
  : result (gset string) :=
  if String.eqb path "" then Raise (Exn FileNotFoundError path)
  else if bool_decide (is_Some (fs !! path)) then Raise (Exn FileExistsError path)
  else Ok ({[path]} ∪ d).

Definition sample_libs : Libs :=
  {| RngState := nat;
     Forest := bool;
     Report := string;
     np_random_seed := Z.to_nat;
     np_random_normal := sample_normal;
     rf_fit := sample_fit;
     rf_predict := sample_predict;
     rf_predict_proba := sample_predict_proba;
     rf_predict_unfitted := fun _ _ => Raise no_trees;
     rf_predict_proba_unfitted := fun _ _ => Raise no_trees;
     train_test_split := sample_split;
     accuracy_score := sample_accuracy;
     classification_report_dict := fun _ _ => Ok "report";
     classification_report_text := fun _ _ => Ok "report";
     confusion_matrix := fun _ _ => Ok [[0; 0]; [0; 0]];
     joblib_dumps := sample_dumps;
     joblib_loads := sample_loads;
     json_dumps := fun ms => Ok (match ms with None => "{}" | Some _ => "{ }" end);
     joblib_dumps_partial := fun _ => [x80];
     json_dumps_partial := fun _ => "{";
     os_open_w := sample_open;
     os_makedirs := sample_makedirs |}.

Definition sample_sys : @Sys sample_libs :=
  @Build_Sys sample_libs 0%nat ∅ ∅ "2024-01-01T00:00:00" [].

Definition blank_pipeline : @MLPipeline sample_libs :=
  @Build_MLPipeline sample_libs "models" "logs" ObjNone None.

(** A pipeline object as its constructor leaves it. *)
Definition fresh_pipeline : @MLPipeline sample_libs * @Sys sample_libs :=
  match @init sample_libs "models" "logs" sample_sys with
  | (Ok self, s) => (self, s)
  | (Raise _, s) => (blank_pipeline, s)
  end.

(** Two rows whose labels are all of class 0. *)
Definition two_rows : DataFrame :=
  {| columns := ["feature_0"]; rows := [[CFloat 0.5%float]; [CFloat 1.5%float]] |}.

Definition one_class : Series := [CInt 0; CInt 0].

(** A pipeline whose model was fitted on the two sample rows. *)
Definition trained_pipeline : @MLPipeline sample_libs * @Sys sample_libs :=
  snd (@train_model sample_libs two_rows one_class ∅ fresh_pipeline).

(** Whether a computation returned. *)
Definition returned {A} (r : result A) : bool :=
  match r with
  | Ok _ => true
  | Raise _ => false
  end.

End PipelineSamples.

Module UploadSamples.

Import Py UploadScript.

(** An account as a map from container names to their blobs.  The script
    looks only at the text of what [create_container] raises, not at its
    class. *)
Definition already_exists : exn :=
  Exn ResourceExistsError "The specified container already exists. ErrorCode:ContainerAlreadyExists".

Definition sample_create (name : string) (a : gmap string (gmap string bytes))
  : result (gmap string (gmap string bytes)) :=
  match a !! name with
  | Some _ => Raise already_exists
  | None => Ok (<[name := ∅]> a)
  end.

Definition sample_upload (container blob : string) (data : bytes) (overwrite : bool)
    (a : gmap string (gmap string bytes)) : result (gmap string (gmap string bytes)) :=
  match a !! container with
  | None => Raise (Exn ResourceNotFoundError "The specified container does not exist.")
  | Some blobs =>
      match blobs !! blob, overwrite with
      | Some _, false => Raise (Exn ResourceExistsError "The specified blob already exists.")
      | _, _ => Ok (<[container := <[blob := data]> blobs]> a)
      end
  end.

#[local] Instance sample_azurite : Azurite := {|
  Account := gmap string (gmap string bytes);
  Client := unit;
  from_connection_string := fun _ => Ok tt;
  create_container := fun _ => sample_create;
  upload_blob := fun _ => sample_upload
|}.

Definition model_bytes : bytes := [x80; x04; x4e; x2e]%byte.

Definition sample_host : Host :=
  {| account := ∅;
     disk := {[ model_path "scripts" := model_bytes ]};
     stdout := [];
     sdk_calls := [] |}.

End UploadSamples.

(* ===================================================================== *)
(** * Facts about binary64 comparisons *)
(* ===================================================================== *)

Module FloatFacts.

Local Open Scope float_scope.











End FloatFacts.

(* ===================================================================== *)
(** * The prediction service: loader, cache and handler *)
(* ===================================================================== *)

Module ServiceSpec.

Import FunctionApp.

Tactic Notation "run_py" :=
  cbv beta delta [bind ret raise lift gets modify try_except] iota.
Tactic Notation "run_py" "in" hyp(H) :=
  cbv beta delta [bind ret raise lift gets modify try_except] iota in H.

Ltac case_call :=
  match goal with
  | |- context [match from_connection_string ?cs with _ => _ end] =>
      destruct (from_connection_string cs) as [?client|?e]
  | |- context [match download_blob ?c ?a ?b ?st with _ => _ end] =>
      destruct (download_blob c a b st) as [?data|?e]
  | |- context [match joblib_load ?d with _ => _ end] =>
      destruct (joblib_load d) as [[[?k ?p|?p]|]|?e]
  end.

Section Proofs.

Context `{Platform}.

Lemma load_cached (w : World) (i : ident) (p : payload ndarray) :
  cached_model w = PyObj i p ->
  load_model_from_blob w = (Ok (PyObj i p), w).
Proof.
  intros Hc. unfold load_model_from_blob. run_py. rewrite Hc. reflexivity.
Qed.

Lemma load_uncached (w : World) :
  cached_model w = PyNone ->
  load_model_from_blob w = load_from_storage w.
Proof.
  intros Hc. unfold load_model_from_blob. run_py. rewrite Hc.
  destruct (load_from_storage w) as [[o|e] w']; reflexivity.
Qed.

Lemma load_from_storage_frame (wa wb : World) :
  same_inputs wa wb ->
  fst (load_from_storage wa) = fst (load_from_storage wb) /\
  same_inputs (snd (load_from_storage wa)) (snd (load_from_storage wb)) /\
  exists evs, io_trace (snd (load_from_storage wa)) = io_trace wa ++ evs /\
              io_trace (snd (load_from_storage wb)) = io_trace wb ++ evs.
Proof.
  intros (Hc & He & Hs & Ho). unfold load_from_storage, same_inputs. run_py. cbn.
  rewrite <- He.
  destruct (unset (environ wa !! "STORAGE_CONNECTION_STRING")).
  { cbn. repeat split; try assumption.
    exists []. rewrite !app_nil_r. split; reflexivity. }
  cbn. rewrite <- Hs, <- Ho. repeat (case_call; cbn).
  all: repeat split; try assumption; try reflexivity.
  all: eexists; rewrite <- ?app_assoc; split; reflexivity.
Qed.

Lemma load_from_storage_raise (w w1 : World) (e : exn) :
  load_from_storage w = (Raise e, w1) ->
  cached_model w1 = cached_model w /\ environ w1 = environ w /\
  storage w1 = storage w /\ next_oid w1 = next_oid w.
Proof.
  unfold load_from_storage. run_py. cbn.
  destruct (unset (environ w !! "STORAGE_CONNECTION_STRING")).
  { intros [= _ <-]. repeat split. }
  cbn. repeat (case_call; cbn); intros [= _ <-]; repeat split.
Qed.

Lemma load_raise (w w1 : World) (e : exn) :
  load_model_from_blob w = (Raise e, w1) ->
  cached_model w = PyNone /\ load_from_storage w = (Raise e, w1).
Proof.
  intros Hl. destruct (cached_model w) as [|i p] eqn:Hc.
  - split; [reflexivity|]. rewrite <- Hl. symmetry. apply load_uncached, Hc.
  - rewrite (load_cached w i p Hc) in Hl. discriminate.
Qed.

Lemma load_from_storage_ok (w w1 : World) (o : pyobj) :
  load_from_storage w = (Ok o, w1) ->
  cached_model w1 = o /\
  match o with
  | PyObj (Made i) _ => i = next_oid w /\ next_oid w1 = S i
  | _ => next_oid w1 = next_oid w
  end.
Proof.
  unfold load_from_storage. run_py. cbn.
  destruct (unset (environ w !! "STORAGE_CONNECTION_STRING")); [discriminate|].
  cbn. repeat (case_call; cbn); try discriminate.
  all: intros [= <- <-]; cbn; auto.
Qed.

(** A load from storage that returns has built the client, downloaded
    the blob and unpickled it, and returns what unpickling gave. *)
Lemma load_from_storage_calls (w w1 : World) (o : pyobj) :
  load_from_storage w = (Ok o, w1) ->
  exists cs client data v,
    environ w !! "STORAGE_CONNECTION_STRING" = Some cs /\
    from_connection_string cs = Ok client /\
    download_blob client "models" "model_v1.pkl" (storage w) = Ok data /\
    joblib_load data = Ok v /\
    io_trace w1 = io_trace w ++ [IoConnect cs; IoDownload "models" "model_v1.pkl"; IoUnpickle] /\
    cached_model w1 = o /\
    o = match v with
        | None => PyNone
        | Some (Existing name p) => PyObj (Named name) p
        | Some (Built p) => PyObj (Made (next_oid w)) p
        end.
Proof.
  unfold load_from_storage. run_py. cbn.
  destruct (environ w !! "STORAGE_CONNECTION_STRING") as [cs|] eqn:Hcs; [|discriminate].
  cbn. destruct (String.eqb cs ""); [discriminate|]. cbn.
  destruct (from_connection_string cs) as [client|] eqn:Hclient; cbn; [|discriminate].
  destruct (download_blob client "models" "model_v1.pkl" (storage w)) as [data|] eqn:Hdata;
    cbn; [|discriminate].
  destruct (joblib_load data) as [v|] eqn:Hv; cbn; [|discriminate].
  destruct v as [[name p|p]|]; cbn; intros [= <- <-]; cbn;
    exists cs, client, data; eexists; rewrite <- !app_assoc;
    repeat split; try eassumption; reflexivity.
Qed.

(** C7.  When the loader raises (no connection string, the client cannot
    be built, the blob is missing or cannot be downloaded, the file does
    not unpickle), the cache slot is still [None] afterwards, and nothing
    of the failure is remembered: whatever the storage account holds at
    the next call, that call does what a full load from the state before
    the failure does, with the same result, the same cache slot and the
    same calls to the storage service. *)
Theorem load_failure_is_not_cached (w w1 : World) (e : exn) :
  load_model_from_blob w = (Raise e, w1) ->
  cached_model w1 = PyNone /\
  forall st' : Storage,
    let first := load_from_storage (set_storage st' w) in
    let retry := load_model_from_blob (set_storage st' w1) in
    fst retry = fst first /\
    cached_model (snd retry) = cached_model (snd first) /\
    exists evs, io_trace (snd first) = io_trace w ++ evs /\
                io_trace (snd retry) = io_trace w1 ++ evs.
Proof.
  intros Hl. apply load_raise in Hl as [Hc Hl].
  apply load_from_storage_raise in Hl as (Hc1 & He1 & Hs1 & Ho1).
  assert (Hn : cached_model w1 = PyNone) by congruence.
  split; [exact Hn|]. intros st' first retry. subst first retry.
  rewrite (load_uncached (set_storage st' w1)) by exact Hn.
  destruct (load_from_storage_frame (set_storage st' w1) (set_storage st' w))
    as (Hr & (Hcm & _) & evs & Ht1 & Ht).
  { unfold same_inputs. cbn. repeat split; congruence. }
  split; [exact Hr|]. split; [exact Hcm|].
  exists evs. split; assumption.
Qed.

(** C3, as amended.  When a call to the loader returns a model object
    (not [None]), the next call returns that same object and changes
    nothing: no call leaves the process.  The invalidation hook empties
    the cache slot whatever it held, and the call after it runs the whole
    load from storage: when it returns, it has built a client from the
    configured connection string, downloaded the blob and unpickled it,
    and what it returns and caches is the object unpickling gave. *)
Theorem cached_model_reused_until_invalidated (w w1 : World) (o : pyobj) :
  load_model_from_blob w = (Ok o, w1) ->
  o <> PyNone ->
  load_model_from_blob w1 = (Ok o, w1) /\
  (forall w' : World,
     cached_model (model_updated w') = PyNone /\
     load_model_from_blob (model_updated w') = load_from_storage (model_updated w')) /\
  (forall (w' w2 : World) (o' : pyobj),
     load_model_from_blob (model_updated w') = (Ok o', w2) ->
     exists cs client data v,
       environ w' !! "STORAGE_CONNECTION_STRING" = Some cs /\
       from_connection_string cs = Ok client /\
       download_blob client "models" "model_v1.pkl" (storage w') = Ok data /\
       joblib_load data = Ok v /\
       io_trace w2 =
         io_trace w' ++ [IoConnect cs; IoDownload "models" "model_v1.pkl"; IoUnpickle] /\
       cached_model w2 = o' /\
       o' = match v with
            | None => PyNone
            | Some (Existing name p) => PyObj (Named name) p
            | Some (Built p) => PyObj (Made (next_oid w')) p
            end).
Proof.
  intros Hl Ho.
  assert (Hinv : forall w', cached_model (model_updated w') = PyNone) by reflexivity.
  assert (Hc1 : cached_model w1 = o).
  { destruct (cached_model w) as [|i p] eqn:Hc.
    - rewrite (load_uncached w Hc) in Hl. apply load_from_storage_ok in Hl as [Hc1 _].
      exact Hc1.
    - rewrite (load_cached w i p Hc) in Hl. injection Hl as <- <-. exact Hc. }
  destruct o as [|i p]; [congruence|].
  split; [apply load_cached, Hc1|].
  split; [intros w'; split; [apply Hinv | apply load_uncached, Hinv]|].
  intros w' w2 o' Hl2. rewrite (load_uncached _ (Hinv w')) in Hl2.
  apply load_from_storage_calls in Hl2. exact Hl2.
Qed.

(** C1, on the code.  With ten features, an empty cache and no
    [STORAGE_CONNECTION_STRING], the handler answers 400 with the text
    of the loader's [ValueError]: the configuration fault is reported as
    invalid input, not as an internal error. *)
Theorem missing_configuration_is_reported_as_400
    (w : World) (req : HttpRequest) (req_body : pyval) (l : list pyval) :
  get_json req = Ok req_body ->
  py_get req_body "features" = Ok (VList l) ->
  List.length l = 10%nat ->
  cached_model w = PyNone ->
  unset (environ w !! "STORAGE_CONNECTION_STRING") = true ->
  predict req w =
    (json_response 400 (error_body "Invalid input: STORAGE_CONNECTION_STRING not set"), w).
Proof.
  intros Hj Hf Hlen Hc Hu. unfold predict, predict_body. run_py.
  rewrite Hj, Hf. destruct l as [|x l]; [discriminate|]. cbn [truthy negb py_len].
  rewrite Hlen. change (Z.of_nat 10 =? 10) with true. cbn [negb]. cbv beta.
  rewrite (load_uncached w Hc). unfold load_from_storage. run_py. cbn.
  rewrite Hu. reflexivity.
Qed.

(** C4, as amended.  When the body is not JSON, or is a JSON object whose
    [features] entry is missing or falsy ([null], [false], zero, an empty
    string, list or object) or has a length other than ten, the handler
    answers 400 and the state is exactly what it was: the loader is not
    called, the cache slot and the storage account are not touched and no
    call leaves the process. *)
Theorem invalid_features_rejected_before_load (w : World) (req : HttpRequest) :
  (req_json req = None \/
   exists d, req_json req = Some (VDict d) /\ rejected (default VNone (assoc "features" d))) ->
  status_code (fst (predict req w)) = 400 /\ snd (predict req w) = w.
Proof.
  unfold predict, predict_body, get_json. run_py.
  intros [Hn | (d & Hd & [Ht | (n & Hlen & Hne)])].
  - rewrite Hn. cbn. split; reflexivity.
  - rewrite Hd. cbn [py_get]. rewrite Ht. cbn. split; reflexivity.
  - rewrite Hd. cbn [py_get]. destruct (truthy _); cbn [negb]; [|split; reflexivity].
    rewrite Hlen. destruct (Z.eqb_spec n 10) as [->|_]; [congruence|].
    cbn. split; reflexivity.
Qed.


Lemma handler_status (e : exn) : status_code (predict_handler e) <> 200.
Proof. unfold predict_handler. destruct (is_ValueError e); cbn; lia. Qed.


End Proofs.

(** ** Concrete runs *)

Import ServiceSamples.

(** A load fails while the blob is missing and leaves the cache empty;
    once the blob is there, the next call loads it. *)
Lemma load_failure_is_not_cached_witness :
  let w1 := snd (load_model_from_blob blobless_world) in
  fst (load_model_from_blob blobless_world) = Raise blob_missing /\
  cached_model w1 = PyNone /\
  fst (load_model_from_blob (@set_storage sample_platform (with_blob pickled_model) w1)) = Ok sample_model.
Proof.
  pose proof (@load_failure_is_not_cached sample_platform blobless_world
                (snd (load_model_from_blob blobless_world)) blob_missing) as Hthm.
  assert (Hfirst : fst (load_model_from_blob blobless_world) = Raise blob_missing)
    by reflexivity.
  assert (Hfail : load_model_from_blob blobless_world =
                  (Raise blob_missing, snd (load_model_from_blob blobless_world))).
  { rewrite <- Hfirst. apply surjective_pairing. }
  destruct (Hthm Hfail) as [Hnone Hretry].
  split; [exact Hfirst|]. split; [exact Hnone|].
  destruct (Hretry (with_blob pickled_model)) as [Hsame _].
  rewrite Hsame. reflexivity.
Defined.

Lemma cached_model_reused_until_invalidated_witness :
  let w1 := snd (load_model_from_blob cold_world) in
  fst (load_model_from_blob cold_world) = Ok sample_model /\
  load_model_from_blob w1 = (Ok sample_model, w1) /\
  cached_model (model_updated w1) = PyNone.
Proof.
  pose proof (@cached_model_reused_until_invalidated sample_platform cold_world
                (snd (load_model_from_blob cold_world)) sample_model) as Hthm.
  assert (Hfirst : fst (load_model_from_blob cold_world) = Ok sample_model) by reflexivity.
  assert (Hload : load_model_from_blob cold_world =
                  (Ok sample_model, snd (load_model_from_blob cold_world))).
  { rewrite <- Hfirst. apply surjective_pairing. }
  assert (Hobj : sample_model <> PyNone) by discriminate.
  destruct (Hthm Hload Hobj) as (Hagain & Hinv & _).
  split; [exact Hfirst|]. split; [exact Hagain|].
  exact (proj1 (Hinv _)).
Defined.

(** C3 as stated fails when the blob is the pickle of [None]: both calls
    return [None], and the second one goes to the storage service again. *)
Lemma none_blob_is_reloaded_on_every_call :
  let w1 := snd (load_model_from_blob none_world) in
  let w2 := snd (load_model_from_blob w1) in
  fst (load_model_from_blob none_world) = Ok PyNone /\
  fst (load_model_from_blob w1) = Ok PyNone /\
  io_trace w2 = io_trace w1 ++ [IoConnect "UseDevelopmentStorage=true";
                                IoDownload "models" "model_v1.pkl";
                                IoUnpickle] /\
  w2 <> w1.
Proof.
  cbv zeta. repeat split; try (vm_compute; reflexivity).
  intros Heq. apply (f_equal io_trace) in Heq. vm_compute in Heq. discriminate.
Qed.

Lemma missing_configuration_is_reported_as_400_witness :
  predict (request_with ten_numbers) unconfigured_world =
    (json_response 400 (error_body "Invalid input: STORAGE_CONNECTION_STRING not set"),
     unconfigured_world).
Proof.
  apply (@missing_configuration_is_reported_as_400 sample_platform unconfigured_world
           (request_with ten_numbers) (VDict [("features", ten_numbers)])
           (map (fun z => VInt z) [1; 2; 3; 4; 5; 6; 7; 8; 9; 10]));
    reflexivity.
Defined.

Lemma invalid_features_rejected_before_load_witness :
  status_code (fst (predict (request_with nine_numbers) cold_world)) = 400 /\
  snd (predict (request_with nine_numbers) cold_world) = cold_world.
Proof.
  apply (@invalid_features_rejected_before_load sample_platform cold_world
           (request_with nine_numbers)).
  right. exists [("features", nine_numbers)]. split; [reflexivity|].
  right. exists 9. split; [reflexivity|lia].
Defined.

(** C4 as stated fails: a features value that is a number, and ten
    entries that are not numbers while the blob is missing, are both
    answered with 500. *)
Lemma unchecked_features_are_answered_500 :
  status_code (fst (predict (request_with (VInt 5)) cold_world)) = 500 /\
  status_code (fst (predict (request_with ten_strings) blobless_world)) = 500.
Proof. split; reflexivity. Qed.

(** The length of a text is counted in characters: ten euro signs, thirty
    bytes, pass the length check and go on to the model load. *)
Lemma a_text_is_measured_in_characters :
  py_len ten_euros = Ok 10 /\
  status_code (fst (predict (request_with ten_euros) blobless_world)) = 500.
Proof. split; reflexivity. Qed.



(** A blob that unpickles to [True]: the loader caches it, and the load
    after an invalidation returns that very object, which no load
    builds. *)
Lemma a_constant_is_the_same_at_every_load :
  let w1 := snd (load_model_from_blob true_world) in
  fst (load_model_from_blob true_world) = Ok (PyObj (Named 1) Opaque) /\
  fst (load_model_from_blob (model_updated w1)) = Ok (PyObj (Named 1) Opaque).
Proof. cbv zeta. split; reflexivity. Qed.

End ServiceSpec.

(* ===================================================================== *)
(** * The training pipeline and the inference helper *)
(* ===================================================================== *)

Module PipelineSpec.

Import TrainModel.

Tactic Notation "run_py" :=
  cbv beta delta [bind ret raise lift gets modify try_except invoke update_sys update_self
                  self_ sys_] iota.
Tactic Notation "run_py" "in" hyp(H) :=
  cbv beta delta [bind ret raise lift gets modify try_except invoke update_sys update_self
                  self_ sys_] iota in H.

(** Tactics for the symbolic execution of [run]. *)

Ltac simplify_run H :=
  cbn [fst snd model metrics model_dir log_dir set_model set_metrics obj_predict outcome
       wall_clock files dirs log_call set_files] in H.

Ltac unfold_steps H :=
  unfold train_model, evaluate_model, save_model, save_metrics, joblib_dump in H;
  run_py in H;
  change (Build_hyperparams (default 100 _) (default 10 _) 42 (-1)) with run_hyperparams in H;
  simplify_run H.

Ltac trace_of Hcalls :=
  match goal with
  | |- ?made = _ =>
      let t := fresh "t" in
      let Ht := fresh "Ht" in
      remember made as t eqn:Ht;
      cbn [fst snd calls log_call set_files set_rng] in Ht;
      rewrite Hcalls in Ht; rewrite <- ?app_assoc in Ht; cbn [app] in Ht;
      rewrite Ht; reflexivity
  end.

Ltac solve_spec :=
  cbn [as_specified fst]; unfold trained_on_split;
  repeat match goal with
         | |- _ /\ _ => split
         | |- exists _, _ => eexists
         end;
  first [eassumption | reflexivity].

Ltac all_specified :=
  repeat (constructor; [solve_spec|]); constructor.

Ltac last_raised :=
  let close := (split; [reflexivity | repeat constructor]) in
  first [ eexists [], _; close
        | eexists [_], _; close
        | eexists [_; _], _; close
        | eexists [_; _; _], _; close
        | eexists [_; _; _; _], _; close
        | eexists [_; _; _; _; _], _; close
        | eexists [_; _; _; _; _; _], _; close
        | eexists [_; _; _; _; _; _; _], _; close
        | eexists [_; _; _; _; _; _; _; _], _; close
        | eexists [_; _; _; _; _; _; _; _; _], _; close
        | eexists [_; _; _; _; _; _; _; _; _; _], _; close
        | eexists [_; _; _; _; _; _; _; _; _; _; _], _; close ].

(** The outcome recorded with a call is the library's. *)
Ltac solve_answer :=
  unfold answered; cbn [fst snd];
  try change (train_test_split _ _ _ _ _) with split_of_generated;
  repeat match goal with
         | H : ?l = _ |- context [?l] => rewrite H
         end;
  cbn [outcome obj_predict];
  repeat match goal with
         | H : ?l = _ |- context [?l] => rewrite H
         end;
  first [ reflexivity
        | unfold trained_on_split;
          repeat match goal with
                 | |- _ /\ _ => split
                 | |- exists _, _ => eexists
                 end;
          first [eassumption | reflexivity | symmetry; eassumption] ].

Ltac all_answered :=
  repeat (constructor; [solve_answer|]); constructor.

(** A call raised, so not all calls return. *)
Ltac no_return :=
  let Hall := fresh "Hall" in
  intros ? [? ? ? ?] ? ? Hall; exfalso;
  destruct Hall as (? & ? & ? & ? & (? & ? & ? & ?) & ? & ? & ? & ? & ? & ? & ? & ? & ? & ?);
  cbn [m_accuracy m_classification_report m_confusion_matrix m_timestamp] in *;
  congruence.

Ltac aborted Hrun Hcalls :=
  injection Hrun as <- <-;
  split;
  [ eexists; split; [trace_of Hcalls|];
    split; [eexists; reflexivity|];
    split; [all_specified|];
    split; [all_answered|];
    last_raised
  | split; [no_return | intros ? [=]] ].

Section Proofs.

Context `{Libs}.

(** ** The generated data *)

Lemma draws_length (k : nat) (g : RngState) : List.length (fst (draws k g)) = k.
Proof.
  revert g. induction k as [|k IH]; intros g; cbn; [reflexivity|].
  destruct (np_random_normal g) as [x g1]. specialize (IH g1).
  destruct (draws k g1) as [xs g2]. cbn in *. f_equal. exact IH.
Qed.

Lemma draw_rows_shape (n k : nat) (g : RngState) :
  List.length (fst (draw_rows n k g)) = n /\
  Forall (fun row => List.length row = k) (fst (draw_rows n k g)).
Proof.
  revert g. induction n as [|n IH]; intros g; cbn; [split; [reflexivity|constructor]|].
  pose proof (draws_length k g) as Hrow.
  destruct (draws k g) as [row g1]. specialize (IH g1).
  destruct (draw_rows n k g1) as [rest g2]. cbn in *. destruct IH as [Hlen Hall].
  split; [f_equal; exact Hlen|]. constructor; assumption.
Qed.

Lemma column_total (j : nat) (X : list (list float)) :
  Forall (fun row => (j < List.length row)%nat) X ->
  column j X = Ok (map (fun row => nth j row 0%float) X).
Proof.
  unfold column. induction 1 as [|row X Hj _ IH]; cbn; [reflexivity|].
  unfold index at 1. destruct (nth_error row j) as [x|] eqn:Hx.
  - rewrite IH. do 2 f_equal. symmetry. apply nth_error_nth, Hx.
  - apply nth_error_None in Hx. lia.
Qed.

Lemma zip_with_labels (X : list (list float)) :
  zip_with (fun row v => row ++ [v]) (map (map CFloat) X)
    (map CInt (zip_with positive_sum (map (fun row => nth 0 row 0%float) X)
                                     (map (fun row => nth 1 row 0%float) X)))
  = map labelled_row X.
Proof. induction X as [|row X IH]; cbn; [reflexivity|]. rewrite IH. reflexivity. Qed.

Lemma build_frame (X : list (list float)) :
  Forall (fun row => List.length row = 10%nat) X ->
  (let x0 := map (fun row => nth 0 row 0%float) X in
   let x1 := map (fun row => nth 1 row 0%float) X in
   column 0 X = Ok x0 /\ column 1 X = Ok x1 /\
   match df_of_array X feature_names with
   | Ok df => df_setitem "target" (map CInt (zip_with positive_sum x0 x1)) df
   | Raise e => Raise e
   end = Ok (labelled_frame X)).
Proof.
  intros Hshape. cbv zeta.
  split; [|split].
  - apply column_total. eapply Forall_impl; [exact Hshape|]. cbn. intros row ->. lia.
  - apply column_total. eapply Forall_impl; [exact Hshape|]. cbn. intros row ->. lia.
  - unfold df_of_array.
    assert (Hall : forallb (fun row => Nat.eqb (List.length row) (List.length feature_names)) X
                   = true).
    { apply forallb_forall. intros row Hin.
      rewrite (proj1 (List.Forall_forall _ _) Hshape row Hin). reflexivity. }
    rewrite Hall. unfold df_setitem. cbn [rows columns].
    rewrite !length_map, length_zip_with, !length_map, Nat.min_id, Nat.eqb_refl.
    cbn [negb]. change (position "target" feature_names) with (@None nat).
    cbv iota. rewrite zip_with_labels. reflexivity.
Qed.

Lemma generate_sample_data_eq (n : Z) (st : MLPipeline * Sys) :
  0 <= n ->
  generate_sample_data n st = (Ok (labelled_frame (generated n)), after_generate n st).
Proof.
  intros Hn. unfold generate_sample_data, randn, generated, after_generate. run_py.
  cbn [fst snd outcome].
  replace (n <? 0) with false by (symmetry; apply Z.ltb_ge; exact Hn).
  cbn [orb Z.ltb Z.compare outcome].
  change (rng (log_call _ (set_rng ?g _))) with g.
  change (Z.to_nat 10) with 10%nat.
  pose proof (draw_rows_shape (Z.to_nat n) 10 (np_random_seed 42)) as [_ Hshape].
  destruct (draw_rows (Z.to_nat n) 10 (np_random_seed 42)) as [X g'].
  cbn [fst snd] in *.
  destruct (build_frame X Hshape) as (H0 & H1 & Hdf).
  rewrite H0, H1.
  destruct (df_of_array X feature_names) as [df|e]; [|discriminate].
  rewrite Hdf. reflexivity.
Qed.

(** C2.  For every positive [N] the generator returns a frame of exactly
    [N] rows; every row is ten features followed by a label, which is 1
    when the sum of the first two features is positive and 0 otherwise;
    and the frame is the same whatever the state the call starts from,
    because the generator is seeded anew on every call. *)
Theorem generate_sample_data_spec (n : Z) (st : MLPipeline * Sys) :
  0 < n ->
  exists df,
    fst (generate_sample_data n st) = Ok df /\
    Z.of_nat (List.length (rows df)) = n /\
    Forall (fun row =>
              exists features label,
                List.length features = 10%nat /\
                row = map CFloat features ++ [CInt label] /\
                label = if PrimFloat.ltb 0%float
                                (nth 0 features 0%float + nth 1 features 0%float)%float
                        then 1 else 0)
           (rows df) /\
    forall st2, fst (generate_sample_data n st2) = Ok df.
Proof.
  intros Hn. exists (labelled_frame (generated n)).
  split; [rewrite generate_sample_data_eq by lia; reflexivity|].
  pose proof (draw_rows_shape (Z.to_nat n) 10 (np_random_seed 42)) as [Hlen Hshape].
  split; [|split].
  - cbn. rewrite length_map. unfold generated. rewrite Hlen. lia.
  - cbn. apply Forall_map. eapply Forall_impl; [exact Hshape|].
    intros row Hrow. exists row, (positive_sum (nth 0 row 0%float) (nth 1 row 0%float)).
    split; [exact Hrow|]. split; reflexivity.
  - intros st2. rewrite generate_sample_data_eq by lia. reflexivity.
Qed.

(** ** Training *)

(** C5, as amended.  [train_model] checks nothing itself.  It stores a
    forest built from its keyword arguments (100 trees and depth 10 by
    default, seed 42) in [self.model] and calls [fit] on it.  It raises
    exactly when [fit] raises, with the exception of [fit], and
    [self.model] is then the unfitted forest; otherwise it returns the
    fitted forest, which is also [self.model] and answers [predict] and
    [predict_proba]. *)
Theorem train_model_follows_fit
    (X_train : DataFrame) (y_train : Series) (kwargs : gmap string Z)
    (st : MLPipeline * Sys) :
  let hp := forest_params kwargs in
  let after := train_model X_train y_train kwargs st in
  match rf_fit hp X_train y_train with
  | Ok f =>
      fst after = Ok (ObjForest hp (Some f)) /\
      model (fst (snd after)) = ObjForest hp (Some f) /\
      (forall X, obj_predict (ObjForest hp (Some f)) X = rf_predict f X /\
                 obj_predict_proba (ObjForest hp (Some f)) X = rf_predict_proba f X)
  | Raise e =>
      fst after = Raise e /\
      model (fst (snd after)) = ObjForest hp None
  end.
Proof.
  cbv zeta. unfold train_model. run_py. fold (forest_params kwargs).
  destruct (rf_fit (forest_params kwargs) X_train y_train) as [f|e]; cbn.
  - repeat split.
  - split; reflexivity.
Qed.

(** ** Saving and loading *)

(** C9.  When [save_model] has written the pipeline's model to a path,
    a [ModelInference] built on that path loads, and on every input on
    which the saved model predicts, it returns the same predictions and
    probabilities. *)
Theorem saved_model_predicts_alike
    (st st1 : MLPipeline * Sys) (filename path : string) :
  joblib_roundtrip ->
  save_model filename st = (Ok path, st1) ->
  exists inf s2,
    Inference.init path (snd st1) = (Ok inf, s2) /\
    forall X ps qs,
      obj_predict (model (fst st)) X = Ok ps ->
      obj_predict_proba (model (fst st)) X = Ok qs ->
      fst (Inference.predict X (inf, s2)) =
        Ok {| Inference.predictions := ps; Inference.probabilities := qs |}.
Proof.
  intros Hrt Hsave. unfold save_model, joblib_dump in Hsave. run_py in Hsave.
  cbn [fst snd] in Hsave.
  destruct (os_open_w _ _ _) as [e|]; [discriminate|].
  destruct (joblib_dumps (model (fst st))) as [data|e] eqn:Hd; [|discriminate].
  cbn in Hsave. injection Hsave as <- <-.
  destruct (Hrt _ _ Hd) as (m' & Hl & Hsame).
  unfold Inference.init, Inference.load_model, Inference.joblib_load.
  cbv beta delta [bind ret raise lift gets modify try_except] iota.
  cbn [fst snd files set_files log_call].
  rewrite lookup_insert_eq. rewrite Hl.
  eexists _, _. split; [reflexivity|].
  intros X ps qs Hps Hqs. unfold Inference.predict.
  cbv beta delta [bind ret raise lift gets modify try_except] iota.
  cbn [fst snd Inference.model].
  destruct (Hsame X) as [Hp Hq]. rewrite <- Hp in Hps. rewrite <- Hq in Hqs.
  destruct m' as [|hp' f'|]; try discriminate Hps; rewrite Hps, Hqs; reflexivity.
Qed.

(** C10, as amended.  The constructor loads at once and raises when the
    file is missing or [joblib.load] raises.  When it returns, the model
    field holds the object [joblib.load] returned; unless the file holds
    the pickle of [None], that field is not [None] and [predict] never
    takes the branch that raises "Model not loaded". *)
Theorem model_inference_init_spec (path : string) (s : Sys) :
  match files s !! path with
  | None => Inference.init path s = (Raise (Exn FileNotFoundError path), s)
  | Some data =>
      match joblib_loads data with
      | Raise e => Inference.init path s = (Raise e, s)
      | Ok m =>
          let inf := {| Inference.model_path := path; Inference.model := m |} in
          Inference.init path s = (Ok inf, s) /\
          (m <> ObjNone ->
           forall X s', Inference.predict X (inf, s') = (Inference.predict_with m X, (inf, s')))
      end
  end.
Proof.
  unfold Inference.init, Inference.load_model, Inference.joblib_load.
  cbv beta delta [bind ret raise lift gets modify try_except] iota.
  cbn [fst snd Inference.model_path].
  destruct (files s !! path) as [data|]; [|reflexivity].
  destruct (joblib_loads data) as [m|e]; [|reflexivity].
  split; [reflexivity|]. intros Hm X s'.
  unfold Inference.predict, Inference.predict_with.
  cbv beta delta [bind ret raise lift gets modify try_except] iota. cbn [fst snd Inference.model].
  destruct m as [|hp f|]; [congruence| |];
    destruct (obj_predict _ X); try reflexivity;
    destruct (obj_predict_proba _ X); reflexivity.
Qed.

(** ** The whole run *)

Lemma delete_last {A} (l : list A) (x : A) : delete (List.length l) (l ++ [x]) = l.
Proof. induction l as [|a l IH]; cbn; [reflexivity|]. f_equal. exact IH. Qed.

Lemma index_last {A} (l : list A) (x : A) : index (l ++ [x]) (List.length l) = Ok x.
Proof.
  unfold index. rewrite nth_error_app2 by lia. rewrite Nat.sub_diag. reflexivity.
Qed.

Lemma take_apart (X : list (list float)) :
  Forall (fun row => List.length row = 10%nat) X ->
  df_drop "target" (labelled_frame X) = Ok (features_of X) /\
  df_getitem "target" (labelled_frame X) = Ok (labels_of X).
Proof.
  intros Hshape. unfold df_drop, df_getitem, labelled_frame, features_of, labels_of.
  cbn [columns rows].
  change (position "target" (feature_names ++ ["target"])) with (Some 10%nat).
  cbv iota. change (delete 10%nat (feature_names ++ ["target"])) with feature_names.
  split.
  - do 2 f_equal. induction Hshape as [|row X Hrow _ IH]; cbn; [reflexivity|].
    rewrite IH. f_equal. unfold labelled_row.
    rewrite <- (delete_last (map CFloat row) (CInt (positive_sum (nth 0 row 0%float)
                                                              (nth 1 row 0%float)))) at 2.
    rewrite length_map, Hrow. reflexivity.
  - induction Hshape as [|row X Hrow _ IH]; cbn; [reflexivity|].
    rewrite IH. unfold labelled_row.
    pose proof (index_last (map CFloat row)
                  (CInt (positive_sum (nth 0 row 0%float) (nth 1 row 0%float)))) as Hi.
    rewrite length_map, Hrow in Hi. rewrite Hi. reflexivity.
Qed.

Lemma run_kwargs_params : forest_params run_kwargs = run_hyperparams.
Proof. reflexivity. Qed.

Lemma after_generate_facts (n : Z) (st : MLPipeline * Sys) :
  fst (after_generate n st) = fst st /\
  files (snd (after_generate n st)) = files (snd st) /\
  calls (snd (after_generate n st)) =
    calls (snd st) ++ [(CallSeed 42, None); (CallRandn n 10, None)].
Proof.
  unfold after_generate. cbn [fst snd calls files set_rng log_call].
  rewrite <- app_assoc. repeat split.
Qed.

Lemma after_generate_dirs (n : Z) (st : MLPipeline * Sys) :
  dirs (snd (after_generate n st)) = dirs (snd st) /\
  wall_clock (snd (after_generate n st)) = wall_clock (snd st).
Proof. split; reflexivity. Qed.

(** C6.  The calls a run makes are an initial part of: generate (seed
    42, 1000 by 10), split (test share 0.2, stratified), train (100
    trees, depth 10, on the training part), evaluate (on the held-out
    part), persist the model, persist the metrics; each call is made with
    those arguments, and the outcome recorded with it is what the library
    answers to it.  When the run raises, the exception is that of the
    last call made, the calls before it returned and no later call was
    made.  The run returns exactly when all its calls return; it then
    made all of them, its result holds the two paths and the metrics,
    the pipeline holds the fitted forest and those metrics, and the two
    files hold the pickled forest and the JSON text of the metrics. *)
Theorem run_executes_the_steps_in_order (st : MLPipeline * Sys) :
  let after := run st in
  let model_path := path_join (model_dir (fst st)) "model.pkl" in
  let metrics_path := path_join (log_dir (fst st)) "metrics.json" in
  (exists evs,
     calls (snd (snd after)) = calls (snd st) ++ evs /\
     map (fun ev => step_of (fst ev)) evs `prefix_of` pipeline_steps /\
     Forall (fun ev => as_specified (fst st) (fst ev)) evs /\
     Forall (answered st) evs /\
     match fst after with
     | Ok r =>
         map (fun ev => step_of (fst ev)) evs = pipeline_steps /\
         Forall (fun ev => snd ev = None) evs
     | Raise e =>
         exists evs' c,
           evs = evs' ++ [(c, Some e)] /\ Forall (fun ev => snd ev = None) evs'
     end) /\
  (forall f report data json,
     all_calls_return st f report data json ->
     fst after = Ok {| r_model_path := model_path; r_metrics_path := metrics_path;
                       r_metrics := Some report |}) /\
  (forall r,
     fst after = Ok r ->
     exists f report data json,
       all_calls_return st f report data json /\
       r = {| r_model_path := model_path; r_metrics_path := metrics_path;
              r_metrics := Some report |} /\
       model (fst (snd after)) = ObjForest run_hyperparams (Some f) /\
       metrics (fst (snd after)) = Some report /\
       files (snd (snd after)) =
         <[metrics_path := list_byte_of_string json]> (<[model_path := data]> (files (snd st)))).
Proof.
  cbv zeta. destruct (run st) as [r st'] eqn:Hrun. cbn [fst snd].
  unfold run in Hrun. run_py in Hrun.
  rewrite generate_sample_data_eq in Hrun by lia. cbv iota beta in Hrun.
  destruct (take_apart (generated 1000)) as [Hdrop Hget]; [apply draw_rows_shape|].
  rewrite Hdrop, Hget in Hrun. cbv iota beta in Hrun. cbn [fst snd] in Hrun.
  change (train_test_split _ _ _ _ _) with split_of_generated in Hrun.
  destruct (after_generate_facts 1000 st) as (Hself & Hfiles & Hcalls).
  destruct (after_generate_dirs 1000 st) as (Hdirs & Hclock).
  destruct (after_generate 1000 st) as [p0 s0]. cbn [fst snd] in *. subst p0.
  destruct split_of_generated as [[[[X_train X_test] y_train] y_test]|e] eqn:Hsplit;
    cbn [outcome] in Hrun.
  2:{ aborted Hrun Hcalls. }
  unfold_steps Hrun.
  destruct (rf_fit run_hyperparams X_train y_train) as [f|e] eqn:Hfit;
    simplify_run Hrun; [|aborted Hrun Hcalls].
  destruct (rf_predict f (OfFrame X_test)) as [y_pred|e] eqn:Hpred;
    simplify_run Hrun; [|aborted Hrun Hcalls].
  destruct (accuracy_score y_test y_pred) as [accuracy|e] eqn:Hacc;
    simplify_run Hrun; [|aborted Hrun Hcalls].
  destruct (classification_report_dict y_test y_pred) as [report|e] eqn:Hrep;
    simplify_run Hrun; [|aborted Hrun Hcalls].
  destruct (confusion_matrix y_test y_pred) as [conf_matrix|e] eqn:Hconf;
    simplify_run Hrun; [|aborted Hrun Hcalls].
  destruct (classification_report_text y_test y_pred) as [text|e] eqn:Htext;
    simplify_run Hrun; [|aborted Hrun Hcalls].
  rewrite ?Hfiles, ?Hdirs, ?Hclock in Hrun.
  destruct (os_open_w (path_join (model_dir (fst st)) "model.pkl") _ _) as [e|] eqn:Hopen;
    cbv beta iota in Hrun; simplify_run Hrun; [aborted Hrun Hcalls|].
  destruct (joblib_dumps (ObjForest run_hyperparams (Some f))) as [data|e] eqn:Hdump;
    cbv beta iota in Hrun; simplify_run Hrun; [|aborted Hrun Hcalls].
  rewrite ?Hfiles, ?Hdirs in Hrun.
  destruct (os_open_w (path_join (log_dir (fst st)) "metrics.json") _ _) as [e|] eqn:Hopen2;
    cbv beta iota in Hrun; simplify_run Hrun; [aborted Hrun Hcalls|].
  destruct (json_dumps _) as [json|e] eqn:Hjson;
    cbv beta iota in Hrun; simplify_run Hrun; [|aborted Hrun Hcalls].
  injection Hrun as <- <-.
  split; [|split].
  - eexists; split; [trace_of Hcalls|].
    split; [eexists; reflexivity|].
    split; [all_specified|].
    split; [all_answered|].
    split; [reflexivity | repeat constructor].
  - intros f' [a' r' c' t'] data' json' Hall.
    destruct Hall as (? & ? & ? & ? & (? & ? & ? & ?) & ? & ? & ? & ? & ? & ? & ? & ? & ? & ?).
    cbn [m_accuracy m_classification_report m_confusion_matrix m_timestamp] in *.
    do 3 f_equal. congruence.
  - intros r0 [= <-]. eexists f, _, data, json.
    split; [|split; [reflexivity|]].
    + exists X_test, y_test, y_pred, text.
      split; [exists X_train, y_train; split; assumption|].
      cbn [m_accuracy m_classification_report m_confusion_matrix m_timestamp].
      repeat split; assumption.
    + cbn [fst snd model metrics set_model set_metrics files set_files log_call].
      rewrite insert_insert_eq. repeat split.
Qed.

End Proofs.

(** ** Concrete runs *)

Import PipelineSamples.

#[local] Existing Instance sample_libs.

Lemma generate_sample_data_spec_witness :
  exists df,
    fst (generate_sample_data 3 fresh_pipeline) = Ok df /\
    Z.of_nat (List.length (rows df)) = 3 /\
    Forall (fun row =>
              exists features label,
                List.length features = 10%nat /\
                row = map CFloat features ++ [CInt label] /\
                label = if PrimFloat.ltb 0%float
                                (nth 0 features 0%float + nth 1 features 0%float)%float
                        then 1 else 0)
           (rows df) /\
    forall st2, fst (generate_sample_data 3 st2) = Ok df.
Proof.
  apply (@generate_sample_data_spec sample_libs 3 fresh_pipeline). lia.
Defined.

(** The sample run returns: all its calls return, and the result holds
    the two paths. *)
Lemma run_executes_the_steps_in_order_witness :
  exists r f report data json,
    fst (run fresh_pipeline) = Ok r /\
    all_calls_return fresh_pipeline f report data json /\
    r = {| r_model_path := "models/model.pkl"; r_metrics_path := "logs/metrics.json";
           r_metrics := Some report |}.
Proof.
  assert (Hok : returned (fst (run fresh_pipeline)) = true) by reflexivity.
  pose proof (@run_executes_the_steps_in_order sample_libs fresh_pipeline) as Hthm.
  cbv zeta in Hthm. destruct Hthm as (_ & _ & Hreturned).
  destruct (fst (run fresh_pipeline)) as [r|e]; [|discriminate Hok].
  destruct (Hreturned r eq_refl) as (f & report & data & json & Hall & Hr & _).
  exists r, f, report, data, json. split; [reflexivity|]. split; [exact Hall | exact Hr].
Defined.

(** C5 as stated fails: [train_model] has no check of the labels, and a
    [fit] that accepts labels of a single class, as the forests of
    scikit-learn do, makes it return a fitted model for them. *)
Lemma single_class_labels_are_fitted :
  one_class = [CInt 0; CInt 0] /\
  fst (@train_model sample_libs two_rows one_class ∅ fresh_pipeline) =
    Ok (ObjForest (forest_params ∅) (Some false)).
Proof. split; vm_compute; reflexivity. Qed.

Lemma sample_joblib_roundtrip : @joblib_roundtrip sample_libs.
Proof.
  intros m data Hd. destruct m as [|hp [[|]|]|]; cbn in Hd; try discriminate;
    injection Hd as <-; (eexists; split; [reflexivity|]); intros X; split; reflexivity.
Qed.

Lemma saved_model_predicts_alike_witness :
  exists inf s2,
    Inference.init "models/model.pkl" (snd (snd (save_model "model.pkl" trained_pipeline)))
      = (Ok inf, s2) /\
    forall X ps qs,
      obj_predict (model (fst trained_pipeline)) X = Ok ps ->
      obj_predict_proba (model (fst trained_pipeline)) X = Ok qs ->
      fst (Inference.predict X (inf, s2)) =
        Ok {| Inference.predictions := ps; Inference.probabilities := qs |}.
Proof.
  apply (@saved_model_predicts_alike sample_libs trained_pipeline
           (snd (save_model "model.pkl" trained_pipeline)) "model.pkl" "models/model.pkl").
  - exact sample_joblib_roundtrip.
  - assert (Hpath : fst (save_model "model.pkl" trained_pipeline) = Ok "models/model.pkl")
      by reflexivity.
    rewrite <- Hpath. apply surjective_pairing.
Defined.

(** C10 as stated fails: [save_model] on a pipeline that was never
    trained writes the pickle of [None]; a [ModelInference] on that file
    is constructed without error, its model field is [None], and
    [predict] raises "Model not loaded". *)
Lemma untrained_model_loads_as_none :
  let saved := save_model "model.pkl" fresh_pipeline in
  let built := Inference.init "models/model.pkl" (snd (snd saved)) in
  let inf := {| Inference.model_path := "models/model.pkl";
                Inference.model := @ObjNone bool |} in
  fst saved = Ok "models/model.pkl" /\
  fst built = Ok inf /\
  fst (Inference.predict (OfArray [[0.5%float]]) (inf, snd built)) =
    Raise (Exn ValueError "Model not loaded").
Proof. cbv zeta. repeat split; vm_compute; reflexivity. Qed.

End PipelineSpec.

(* ===================================================================== *)
(** * More about the prediction service *)
(* ===================================================================== *)

Module ServiceProps.

Import FunctionApp ServiceSpec.

Section Proofs.

Context `{Platform}.

(** ** The loader *)

Lemma load_from_storage_effects (w : World) :
  let w1 := snd (load_from_storage w) in
  environ w1 = environ w /\ storage w1 = storage w /\
  exists evs, io_trace w1 = io_trace w ++ evs.
Proof.
  cbv zeta. unfold load_from_storage. run_py. cbn.
  destruct (unset (environ w !! "STORAGE_CONNECTION_STRING")).
  { cbn. repeat split. exists []. rewrite app_nil_r. reflexivity. }
  cbn. repeat (case_call; cbn).
  all: repeat split.
  all: eexists; rewrite <- ?app_assoc; reflexivity.
Qed.

Lemma load_effects (w : World) :
  let w1 := snd (load_model_from_blob w) in
  environ w1 = environ w /\ storage w1 = storage w /\
  exists evs, io_trace w1 = io_trace w ++ evs.
Proof.
  cbv zeta. destruct (cached_model w) as [|i p] eqn:Hc.
  - rewrite (load_uncached w Hc). apply load_from_storage_effects.
  - rewrite (load_cached w i p Hc). cbn. repeat split.
    exists []. rewrite app_nil_r. reflexivity.
Qed.

(** ** The handler *)

Lemma predict_body_accepted (req : HttpRequest) (features : pyval) (w : World) :
  accepted req features ->
  predict_body req w =
    match load_model_from_blob w with
    | (Ok model, w1) => (infer features model, w1)
    | (Raise e, w1) => (Raise e, w1)
    end.
Proof.
  intros (req_body & Hj & Hf & Ht & Hl). unfold predict_body, infer. run_py.
  rewrite Hj, Hf, Ht, Hl. cbn [negb Z.eqb Pos.eqb]. cbv beta iota.
  destruct (load_model_from_blob w) as [[model|e] w1]; [|reflexivity].
  destruct (np_array_reshape features) as [X|]; [|reflexivity].
  destruct (call_predict model X) as [ys|]; [|reflexivity].
  destruct (index ys 0) as [y|]; [|reflexivity].
  destruct (call_predict_proba model X) as [rows|]; [|reflexivity].
  destruct (index rows 0) as [row|]; [|reflexivity].
  destruct (index row 0) as [p0|]; [|reflexivity].
  destruct (index row 1) as [p1|]; [|reflexivity].
  destruct (py_max row) as [c|]; reflexivity.
Qed.

(** Either the request is accepted, or the handler answers 400 or raises
    before the loader is called. *)
Lemma predict_body_rejected (req : HttpRequest) (w : World) :
  (exists features, accepted req features) \/
  (exists msg, predict_body req w = (Ok (json_response 400 (error_body msg)), w)) \/
  (exists e, predict_body req w = (Raise e, w)).
Proof.
  unfold predict_body, accepted. run_py.
  destruct (get_json req) as [req_body|e] eqn:Hj; [|right; right; eexists; reflexivity].
  destruct (py_get req_body "features") as [features|e] eqn:Hf;
    [|right; right; eexists; reflexivity].
  destruct (truthy features) eqn:Ht; cbn [negb]; [|right; left; eexists; reflexivity].
  destruct (py_len features) as [n|e] eqn:Hl; [|right; right; eexists; reflexivity].
  destruct (Z.eqb_spec n 10) as [->|Hn]; cbn [negb];
    [|right; left; eexists; reflexivity].
  left. exists features, req_body. repeat split; assumption || reflexivity.
Qed.

Lemma predict_state (req : HttpRequest) (w : World) :
  snd (predict req w) = w \/ snd (predict req w) = snd (load_model_from_blob w).
Proof.
  unfold predict.
  destruct (predict_body_rejected req w) as [(features & Ha) | [(msg & ->) | (e & ->)]];
    [|left; reflexivity|left; reflexivity].
  rewrite (predict_body_accepted req features w Ha).
  destruct (load_model_from_blob w) as [[model|e] w1]; [|right; reflexivity].
  destruct (infer features model); right; reflexivity.
Qed.

Lemma infer_ok (features : pyval) (model : pyobj) (resp : HttpResponse) :
  infer features model = Ok resp ->
  (exists y p0 p1 c, resp = json_response 200 (prediction_result y p0 p1 c)) /\
  exists i m, model = PyObj i (Estimator m).
Proof.
  unfold infer. intros Hi.
  destruct (np_array_reshape features) as [X|]; [|discriminate].
  destruct (call_predict model X) as [ys|] eqn:Hp; [|discriminate].
  destruct (index ys 0) as [y|]; [|discriminate].
  destruct (call_predict_proba model X) as [rows|]; [|discriminate].
  destruct (index rows 0) as [row|]; [|discriminate].
  destruct (index row 0) as [p0|]; [|discriminate].
  destruct (index row 1) as [p1|]; [|discriminate].
  destruct (py_max row) as [c|]; [|discriminate].
  injection Hi as <-. split; [eauto|].
  destruct model as [|i [m|]]; try discriminate. eauto.
Qed.

(** X1.  Whatever the request, the handler leaves the storage account
    and the environment as they were, and only adds to the record of
    calls made. *)
Theorem predict_leaves_storage_and_environment (req : HttpRequest) (w : World) :
  let w1 := snd (predict req w) in
  storage w1 = storage w /\ environ w1 = environ w /\
  exists evs, io_trace w1 = io_trace w ++ evs.
Proof.
  cbv zeta. destruct (predict_state req w) as [-> | ->].
  - repeat split. exists []. rewrite app_nil_r. reflexivity.
  - destruct (load_effects w) as (He & Hs & Ht). auto.
Qed.

(** X2.  The handler always answers with JSON and with status 200, 400
    or 500; an answer other than 200 has the body [{"error": msg}]. *)
Theorem predict_answers (req : HttpRequest) (w : World) :
  let resp := fst (predict req w) in
  mimetype resp = "application/json" /\
  (status_code resp = 200 \/ status_code resp = 400 \/ status_code resp = 500) /\
  (status_code resp <> 200 -> exists msg, body resp = error_body msg).
Proof.
  cbv zeta.
  assert (Hh : forall e, let resp := predict_handler e in
             mimetype resp = "application/json" /\
             (status_code resp = 200 \/ status_code resp = 400 \/ status_code resp = 500) /\
             (status_code resp <> 200 -> exists msg, body resp = error_body msg)).
  { intros e. unfold predict_handler. destruct (is_ValueError e); cbn; eauto 6. }
  unfold predict.
  destruct (predict_body_rejected req w) as [(features & Ha) | [(msg & ->) | (e & ->)]].
  - rewrite (predict_body_accepted req features w Ha).
    destruct (load_model_from_blob w) as [[model|e] w1]; [|apply Hh].
    destruct (infer features model) as [resp|e] eqn:Hi; [|apply Hh].
    apply infer_ok in Hi as [(y & p0 & p1 & c & ->) _]. cbn.
    split; [reflexivity|]. split; [auto|]. congruence.
  - cbn. split; [reflexivity|]. split; [auto|]. eauto.
  - apply Hh.
Qed.

(** X3.  While a model is cached, a request changes nothing: the cache
    slot keeps its object and no call leaves the process. *)
Theorem warm_predict_changes_nothing
    (req : HttpRequest) (w : World) (i : ident) (p : payload ndarray) :
  cached_model w = PyObj i p ->
  snd (predict req w) = w.
Proof.
  intros Hc. destruct (predict_state req w) as [-> | ->]; [reflexivity|].
  rewrite (load_cached w i p Hc). reflexivity.
Qed.

(** X4.  A request answered 200 leaves a state in which the same
    request gets the same answer and changes nothing. *)
Theorem successful_predict_repeats
    (req : HttpRequest) (w w1 : World) (resp : HttpResponse) :
  predict req w = (resp, w1) ->
  status_code resp = 200 ->
  predict req w1 = (resp, w1).
Proof.
  unfold predict. intros Hp Hs.
  destruct (predict_body_rejected req w) as [(features & Ha) | [(msg & Hb) | (e & Hb)]].
  - rewrite (predict_body_accepted req features w Ha) in Hp.
    rewrite (predict_body_accepted req features w1 Ha).
    destruct (load_model_from_blob w) as [[model|e] w'] eqn:Hl.
    + destruct (infer features model) as [r|e] eqn:Hi; injection Hp as <- <-.
      * destruct (infer_ok _ _ _ Hi) as [_ (i & m & ->)].
        assert (Hc : cached_model w' = PyObj i (Estimator m)).
        { destruct (cached_model w) as [|i0 p0] eqn:Hc.
          - rewrite (load_uncached w Hc) in Hl.
            apply load_from_storage_ok in Hl as [Hc1 _]. exact Hc1.
          - rewrite (load_cached w i0 p0 Hc) in Hl. injection Hl; intros; subst.
            exact Hc. }
        rewrite (load_cached w' i (Estimator m) Hc), Hi. reflexivity.
      * exfalso. exact (handler_status e Hs).
    + injection Hp as <- <-. exfalso. exact (handler_status e Hs).
  - rewrite Hb in Hp. injection Hp as <- <-. discriminate.
  - rewrite Hb in Hp. injection Hp as <- <-. exfalso. exact (handler_status e Hs).
Qed.

(** X5.  The loader removes its temporary file only when it succeeds.
    After a load that returns, the temporary files are those there
    before; after a load that raises once the storage client was built
    (the download or the unpickling failed), the file made for that load
    is still there. *)
Theorem temporary_file_is_kept_on_failure (w : World) :
  tmp_names_fresh w ->
  let cs := environ w !! "STORAGE_CONNECTION_STRING" in
  match load_model_from_blob w with
  | (Ok _, w1) => tmp_files w1 = tmp_files w /\ tmp_names_fresh w1
  | (Raise _, w1) =>
      tmp_names_fresh w1 /\
      (cached_model w = PyNone -> unset cs = false ->
       forall client, from_connection_string (default "" cs) = Ok client ->
       next_tmp w1 = S (next_tmp w) /\ is_Some (tmp_files w1 !! next_tmp w))
  end.
Proof.
  intros Hfresh. cbv zeta.
  assert (Hnone : tmp_files w !! next_tmp w = None) by (apply Hfresh; lia).
  destruct (cached_model w) as [|i p] eqn:Hc.
  2: { rewrite (load_cached w i p Hc). split; [reflexivity | exact Hfresh]. }
  rewrite (load_uncached w Hc). unfold load_from_storage. run_py. cbn.
  destruct (unset (environ w !! "STORAGE_CONNECTION_STRING")).
  { cbn. split; [exact Hfresh|]. intros _ Hu. discriminate. }
  cbn. case_call; cbn.
  2: { split; [exact Hfresh|]. intros _ _ c Hcl. discriminate. }
  case_call; cbn.
  2: { split.
       - unfold tmp_names_fresh. cbn. intros t Ht.
         rewrite lookup_insert_ne by lia. apply Hfresh. lia.
       - intros _ _ c _. split; [reflexivity|]. rewrite lookup_insert_eq. eauto. }
  case_call; cbn.
  1-3: rewrite insert_insert_eq, delete_insert_id by exact Hnone;
       (split; [reflexivity|]); unfold tmp_names_fresh; cbn; intros t Ht; apply Hfresh; lia.
  split.
  - unfold tmp_names_fresh. cbn. intros t Ht.
    rewrite !lookup_insert_ne by lia. apply Hfresh. lia.
  - intros _ _ c _. split; [reflexivity|]. rewrite lookup_insert_eq. eauto.
Qed.

(** X6.  A load from an empty cache that returns made exactly three
    calls, in this order: it built the client from the configured
    connection string, downloaded [models/model_v1.pkl] and unpickled
    the file; what it returns is what the cache slot then holds. *)
Theorem cold_load_calls (w w1 : World) (o : pyobj) :
  cached_model w = PyNone ->
  load_model_from_blob w = (Ok o, w1) ->
  exists cs,
    environ w !! "STORAGE_CONNECTION_STRING" = Some cs /\ cs <> "" /\
    io_trace w1 = io_trace w ++ [IoConnect cs; IoDownload "models" "model_v1.pkl"; IoUnpickle] /\
    cached_model w1 = o.
Proof.
  intros Hc Hl. rewrite (load_uncached w Hc) in Hl.
  unfold load_from_storage in Hl. run_py in Hl. cbn in Hl.
  destruct (environ w !! "STORAGE_CONNECTION_STRING") as [cs|] eqn:He; [|discriminate].
  cbn [unset default] in Hl.
  destruct (String.eqb_spec cs "") as [->|Hne]; cbn in Hl; [discriminate|].
  exists cs. split; [reflexivity|]. split; [exact Hne|].
  destruct (from_connection_string cs) as [client|]; [|discriminate]. cbn in Hl.
  destruct (download_blob client "models" "model_v1.pkl" (storage w)) as [data|];
    [|discriminate]. cbn in Hl.
  destruct (joblib_load data) as [[[k p|p]|]|]; [| | |discriminate]; cbn in Hl;
    injection Hl as <- <-; cbn; rewrite <- !app_assoc; split; reflexivity.
Qed.

(** X7.  When the loader hands over something that is not a model
    ([None], or an object without [predict]), an accepted request whose
    features numpy can turn into an array is answered 500. *)
Theorem non_model_is_answered_500
    (req : HttpRequest) (features : pyval) (w : World) (o : pyobj) (X : ndarray) :
  accepted req features ->
  np_array_reshape features = Ok X ->
  fst (load_model_from_blob w) = Ok o ->
  (o = PyNone \/ exists i, o = PyObj i Opaque) ->
  status_code (fst (predict req w)) = 500.
Proof.
  intros Ha HX Hl Ho. unfold predict.
  rewrite (predict_body_accepted req features w Ha).
  destruct (load_model_from_blob w) as [[model|e] w1]; [|discriminate].
  injection Hl as ->. unfold infer. rewrite HX.
  destruct Ho as [-> | (i & ->)]; reflexivity.
Qed.

(** X8.  What [model_info] advertises is what the service does: a list
    whose length differs from [features_required] is answered 400, and
    every download the loader adds to the record is for the advertised
    container and blob.  [model_info] itself answers 200 and changes
    nothing. *)
Theorem model_info_is_accurate (req : HttpRequest) (w : World) :
  exists n container blob,
    let info := body (fst (model_info req w)) in
    status_code (fst (model_info req w)) = 200 /\ snd (model_info req w) = w /\
    py_get info "features_required" = Ok (VInt n) /\
    py_get info "container" = Ok (VStr container) /\
    py_get info "blob_name" = Ok (VStr blob) /\
    (forall req' d l w',
       req_json req' = Some (VDict d) -> assoc "features" d = Some (VList l) ->
       Z.of_nat (List.length l) <> n ->
       status_code (fst (predict req' w')) = 400) /\
    (forall w' c b,
       In (IoDownload c b) (io_trace (snd (load_model_from_blob w'))) ->
       In (IoDownload c b) (io_trace w') \/ (c = container /\ b = blob)).
Proof.
  exists 10, "models", "model_v1.pkl". cbv zeta.
  split; [reflexivity|]. split; [reflexivity|].
  split; [reflexivity|]. split; [reflexivity|]. split; [reflexivity|]. split.
  - intros req' d l w' Hd Hf Hn. unfold predict, predict_body, get_json. run_py.
    rewrite Hd. cbn [py_get]. rewrite Hf. cbn [default from_option id].
    destruct l as [|x l]; [reflexivity|]. cbn [truthy negb py_len].
    destruct (Z.eqb_spec (Z.of_nat (List.length (x :: l))) 10) as [Heq|_];
      [contradiction|]. reflexivity.
  - intros w' c b Hin. destruct (cached_model w') as [|i p] eqn:Hc.
    2: { rewrite (load_cached w' i p Hc) in Hin. left. exact Hin. }
    rewrite (load_uncached w' Hc) in Hin.
    unfold load_from_storage in Hin. run_py in Hin. cbn in Hin.
    destruct (unset (environ w' !! "STORAGE_CONNECTION_STRING")); [left; exact Hin|].
    cbn in Hin.
    repeat match type of Hin with
           | context [match from_connection_string ?cs with _ => _ end] =>
               destruct (from_connection_string cs); cbn in Hin
           | context [match download_blob ?a ?x ?y ?st with _ => _ end] =>
               destruct (download_blob a x y st); cbn in Hin
           | context [match joblib_load ?data with _ => _ end] =>
               destruct (joblib_load data) as [[[? ?|?]|]|]; cbn in Hin
           end;
      rewrite ?in_app_iff in Hin; cbn in Hin;
      intuition (try discriminate; try congruence).
Qed.

End Proofs.

(** ** Concrete runs *)

Import ServiceSamples.

Lemma warm_predict_changes_nothing_witness :
  snd (predict (request_with ten_numbers) warm_world) = warm_world.
Proof.
  apply (@warm_predict_changes_nothing sample_platform (request_with ten_numbers)
           warm_world (Made 0) (Estimator sample_estimator)).
  reflexivity.
Defined.

Lemma successful_predict_repeats_witness :
  let first := predict (request_with ten_numbers) cold_world in
  status_code (fst first) = 200 /\
  predict (request_with ten_numbers) (snd first) = first.
Proof.
  cbv zeta. split; [reflexivity|].
  rewrite (surjective_pairing (predict (request_with ten_numbers) cold_world)) at 2.
  apply (@successful_predict_repeats sample_platform (request_with ten_numbers) cold_world).
  - apply surjective_pairing.
  - reflexivity.
Defined.

Lemma temporary_file_is_kept_on_failure_witness :
  raised (fst (load_model_from_blob blobless_world)) = true /\
  is_Some (tmp_files (snd (load_model_from_blob blobless_world)) !! 0%nat).
Proof.
  assert (Hraised : raised (fst (load_model_from_blob blobless_world)) = true)
    by reflexivity.
  split; [exact Hraised|].
  assert (Hfresh : tmp_names_fresh blobless_world) by (intros t _; reflexivity).
  pose proof (@temporary_file_is_kept_on_failure sample_platform blobless_world Hfresh)
    as Hthm.
  cbv zeta in Hthm.
  destruct (load_model_from_blob blobless_world) as [[o|e] w1]; [discriminate Hraised|].
  destruct Hthm as [_ Hkept].
  exact (proj2 (Hkept eq_refl eq_refl tt eq_refl)).
Defined.

Lemma cold_load_calls_witness :
  exists o w1 cs,
    load_model_from_blob cold_world = (Ok o, w1) /\
    environ cold_world !! "STORAGE_CONNECTION_STRING" = Some cs /\ cs <> "" /\
    io_trace w1 =
      io_trace cold_world ++ [IoConnect cs; IoDownload "models" "model_v1.pkl"; IoUnpickle] /\
    cached_model w1 = o.
Proof.
  assert (Hok : raised (fst (load_model_from_blob cold_world)) = false) by reflexivity.
  destruct (load_model_from_blob cold_world) as [[o|e] w1] eqn:Hl; [|discriminate Hok].
  destruct (@cold_load_calls sample_platform cold_world w1 o eq_refl Hl) as (cs & Hcs).
  exists o, w1, cs. split; [reflexivity | exact Hcs].
Defined.

Lemma non_model_is_answered_500_witness :
  status_code (fst (predict (request_with ten_numbers) none_world)) = 500.
Proof.
  apply (@non_model_is_answered_500 sample_platform (request_with ten_numbers) ten_numbers
           none_world PyNone
           (map (fun z => VInt z) [1; 2; 3; 4; 5; 6; 7; 8; 9; 10])).
  - exists (VDict [("features", ten_numbers)]). repeat split.
  - reflexivity.
  - reflexivity.
  - left. reflexivity.
Defined.

End ServiceProps.

(* ===================================================================== *)
(** * More about the pipeline and the inference helper *)
(* ===================================================================== *)

Module PipelineProps.

Import TrainModel PipelineSpec.

Section Proofs.

Context `{Libs}.

(** ** The generator *)

Lemma generate_negative (n : Z) (st : MLPipeline * Sys) :
  n < 0 ->
  generate_sample_data n st =
    (Raise (Exn ValueError "negative dimensions are not allowed"),
     (fst st,
      log_call (CallRandn n 10,
                Some (Exn ValueError "negative dimensions are not allowed"))
        (set_rng (np_random_seed 42) (log_call (CallSeed 42, None) (snd st))))).
Proof.
  intros Hn. unfold generate_sample_data, randn. run_py. cbn [fst snd outcome].
  replace (n <? 0) with true by (symmetry; apply Z.ltb_lt; exact Hn).
  reflexivity.
Qed.

(** X9.  For a count that is not negative the frame has the eleven
    columns [feature_0] to [feature_9] and [target], as many rows as
    asked for (none for zero) and eleven cells in every row; for a
    negative count the generator raises [ValueError]. *)
Theorem generate_sample_data_shape (n : Z) (st : MLPipeline * Sys) :
  match fst (generate_sample_data n st) with
  | Ok df =>
      0 <= n /\
      columns df = ["feature_0"; "feature_1"; "feature_2"; "feature_3"; "feature_4";
                    "feature_5"; "feature_6"; "feature_7"; "feature_8"; "feature_9";
                    "target"] /\
      List.length (rows df) = Z.to_nat n /\
      Forall (fun row => List.length row = 11%nat) (rows df)
  | Raise e => n < 0 /\ exn_cls e = ValueError
  end.
Proof.
  destruct (Z.lt_ge_cases n 0) as [Hn | Hn].
  - rewrite (generate_negative n st Hn). cbn. split; [exact Hn | reflexivity].
  - rewrite (generate_sample_data_eq n st Hn). cbn [fst].
    pose proof (draw_rows_shape (Z.to_nat n) 10 (np_random_seed 42)) as [Hlen Hshape].
    split; [exact Hn|]. split; [reflexivity|]. split.
    + cbn. rewrite length_map. exact Hlen.
    + cbn. apply Forall_map. eapply Forall_impl; [exact Hshape|].
      intros row Hrow. unfold labelled_row. rewrite length_app, length_map, Hrow.
      reflexivity.
Qed.

(** X10.  Every call sets numpy's global generator anew: the state it
    leaves depends on the count alone, not on the state it found. *)
Theorem generate_sample_data_resets_the_generator
    (n : Z) (st1 st2 : MLPipeline * Sys) :
  rng (snd (snd (generate_sample_data n st1))) =
  rng (snd (snd (generate_sample_data n st2))).
Proof.
  destruct (Z.lt_ge_cases n 0) as [Hn | Hn].
  - rewrite !(generate_negative n _ Hn). reflexivity.
  - rewrite !(generate_sample_data_eq n _ Hn). reflexivity.
Qed.

(** ** Evaluation *)

(** X11.  [evaluate_model] never touches the model, the directories or
    the files.  When it returns, it returns the metrics it stored: the
    accuracy, the report and the confusion matrix of the model's
    predictions, with the time the clock shows.  When it raises, the
    stored metrics are the old ones, except when the four computations
    succeeded and only the report rendered for the log raised: those new
    metrics are then already stored. *)
Theorem evaluate_model_effects (X_test : DataFrame) (y_test : Series)
    (st : MLPipeline * Sys) :
  let after := evaluate_model X_test y_test st in
  let self := fst (snd after) in
  model self = model (fst st) /\
  model_dir self = model_dir (fst st) /\ log_dir self = log_dir (fst st) /\
  files (snd (snd after)) = files (snd st) /\
  match fst after with
  | Ok ms =>
      ms = metrics self /\ is_Some ms /\
      exists y_pred, evaluated (model (fst st)) X_test y_test (wall_clock (snd st)) y_pred ms
  | Raise e =>
      metrics self = metrics (fst st) \/
      exists y_pred,
        obj_predict (model (fst st)) (OfFrame X_test) = Ok y_pred /\
        classification_report_text y_test y_pred = Raise e /\
        is_Some (metrics self) /\
        evaluated (model (fst st)) X_test y_test (wall_clock (snd st)) y_pred (metrics self)
  end.
Proof.
  cbv zeta. unfold evaluate_model, evaluated. run_py. cbn [fst snd].
  destruct (obj_predict (model (fst st)) (OfFrame X_test)) as [y_pred|e] eqn:Hp;
    cbn; [|auto 6].
  destruct (accuracy_score y_test y_pred) as [acc|e] eqn:Ha; cbn; [|auto 6].
  destruct (classification_report_dict y_test y_pred) as [rep|e] eqn:Hr; cbn; [|auto 6].
  destruct (confusion_matrix y_test y_pred) as [cm|e] eqn:Hc; cbn; [|auto 6].
  destruct (classification_report_text y_test y_pred) as [txt|e] eqn:Ht; cbn.
  - repeat split; eauto. exists y_pred. split; [reflexivity|].
    eexists. repeat split; assumption.
  - repeat split. right. exists y_pred.
    split; [reflexivity|]. split; [exact Ht|]. split; [eauto|].
    split; [reflexivity|]. eexists. repeat split; assumption.
Qed.

(** ** Training *)

(** X14.  A training that fails discards whatever model the pipeline
    held.  [train_model] raises the exception of [fit], and what
    [evaluate_model] then does is what it does on the forest whose [fit]
    did not return, whatever the old model was: when [predict] raises on
    that forest, [evaluate_model] raises the same exception and the
    stored metrics stay as they were. *)
Theorem failed_training_discards_the_model
    (X_train : DataFrame) (y_train : Series) (kwargs : gmap string Z)
    (st : MLPipeline * Sys) (e : exn) :
  rf_fit (forest_params kwargs) X_train y_train = Raise e ->
  let st1 := snd (train_model X_train y_train kwargs st) in
  fst (train_model X_train y_train kwargs st) = Raise e /\
  forall X_test y_test,
    (forall old : model_obj Forest,
       fst (evaluate_model X_test y_test
              (snd (train_model X_train y_train kwargs (set_model old (fst st), snd st)))) =
       fst (evaluate_model X_test y_test st1)) /\
    (forall e',
       rf_predict_unfitted (forest_params kwargs) (OfFrame X_test) = Raise e' ->
       fst (evaluate_model X_test y_test st1) = Raise e' /\
       metrics (fst (snd (evaluate_model X_test y_test st1))) = metrics (fst st)).
Proof.
  intros Hfit. cbv zeta. unfold train_model. run_py. fold (forest_params kwargs).
  rewrite Hfit. cbn [fst snd outcome]. split; [reflexivity|].
  intros X_test y_test. unfold evaluate_model. run_py.
  cbn [fst snd model set_model obj_predict]. split.
  - intros old. destruct (rf_predict_unfitted _ _) as [y_pred|e0]; cbn [outcome fst snd]; cbn.
    + destruct (accuracy_score y_test y_pred); cbn; [|reflexivity].
      destruct (classification_report_dict y_test y_pred); cbn; [|reflexivity].
      destruct (confusion_matrix y_test y_pred); cbn; [|reflexivity].
      destruct (classification_report_text y_test y_pred); reflexivity.
    + reflexivity.
  - intros e' ->. split; reflexivity.
Qed.

(** ** Paths *)

Lemma append_cons (x : ascii) (a b : string) : String x a +:+ b = String x (a +:+ b).
Proof. reflexivity. Qed.

Lemma append_assoc (a b c : string) : (a +:+ b) +:+ c = a +:+ (b +:+ c).
Proof.
  induction a as [|x a IH]; [reflexivity|]. rewrite !append_cons, IH. reflexivity.
Qed.

Lemma path_join_suffix (a b : string) : exists p, path_join a b = p +:+ b.
Proof.
  unfold path_join. destruct (starts_with_sep b); [exists ""; reflexivity|].
  destruct (String.eqb a "" || ends_with_sep a).
  - exists a. reflexivity.
  - exists (a +:+ "/"). rewrite append_assoc. reflexivity.
Qed.

Lemma last_char_app (p s : string) :
  s <> "" -> last_char (p +:+ s) = last_char s.
Proof.
  intros Hs. induction p as [|x p IH]; [reflexivity|].
  rewrite append_cons, <- IH. destruct (p +:+ s) as [|y t] eqn:Hps; [|reflexivity].
  destruct p; [contradiction | rewrite append_cons in Hps; discriminate].
Qed.

(** The model file and the metrics file of a run never share a path. *)
Lemma run_paths_differ (a b : string) :
  path_join a "model.pkl" <> path_join b "metrics.json".
Proof.
  destruct (path_join_suffix a "model.pkl") as [p ->].
  destruct (path_join_suffix b "metrics.json") as [q ->].
  intros Heq. apply (f_equal last_char) in Heq.
  rewrite !last_char_app in Heq by discriminate. discriminate.
Qed.


(** X12.  [save_model] touches one file and nothing else: the pipeline
    object is unchanged and every file but the one at the joined path is
    as it was.  When it returns, that file holds the bytes [joblib] made
    of the model, whatever was there before.  When it raises because the
    file cannot be opened, no file is changed.  When it raises because
    the model cannot be pickled, the file was already emptied and holds
    what [joblib] wrote until then: a model saved there before is
    lost. *)
Theorem save_model_writes_one_file (filename : string) (st : MLPipeline * Sys) :
  let after := save_model filename st in
  let path := path_join (model_dir (fst st)) filename in
  fst (snd after) = fst st /\
  (forall other, other <> path ->
     files (snd (snd after)) !! other = files (snd st) !! other) /\
  match fst after with
  | Ok returned =>
      returned = path /\
      exists data,
        joblib_dumps (model (fst st)) = Ok data /\
        files (snd (snd after)) !! path = Some data
  | Raise e =>
      (os_open_w path (dirs (snd st)) (files (snd st)) = Some e /\
       files (snd (snd after)) = files (snd st)) \/
      (os_open_w path (dirs (snd st)) (files (snd st)) = None /\
       joblib_dumps (model (fst st)) = Raise e /\
       files (snd (snd after)) !! path = Some (joblib_dumps_partial (model (fst st))))
  end.
Proof.
  cbv zeta. unfold save_model, joblib_dump. run_py. cbn [fst snd].
  destruct (os_open_w _ _ _) as [e|] eqn:Hopen; cbn.
  { split; [reflexivity|]. split; [reflexivity|]. left. split; reflexivity. }
  destruct (joblib_dumps (model (fst st))) as [data|e]; cbn.
  - split; [reflexivity|]. split.
    + intros other Hne. apply lookup_insert_ne. congruence.
    + split; [reflexivity|]. exists data. split; [reflexivity | apply lookup_insert_eq].
  - split; [reflexivity|]. split.
    + intros other Hne. apply lookup_insert_ne. congruence.
    + right. split; [reflexivity|]. split; [reflexivity | apply lookup_insert_eq].
Qed.

(** ** The files of a run *)

Lemma run_ok (st st' : MLPipeline * Sys) (r : RunResult) :
  run st = (Ok r, st') ->
  exists f data json ms,
    model (fst st') = ObjForest run_hyperparams (Some f) /\
    metrics (fst st') = Some ms /\
    joblib_dumps (ObjForest run_hyperparams (Some f)) = Ok data /\
    json_dumps (Some ms) = Ok json /\
    r_model_path r = path_join (model_dir (fst st)) "model.pkl" /\
    r_metrics_path r = path_join (log_dir (fst st)) "metrics.json" /\
    files (snd st') =
      <[r_metrics_path r := list_byte_of_string json]>
        (<[r_metrics_path r := []]> (<[r_model_path r := data]> (files (snd st)))).
Proof.
  intros Hrun. unfold run in Hrun. run_py in Hrun.
  rewrite generate_sample_data_eq in Hrun by lia. cbv iota beta in Hrun.
  destruct (take_apart (generated 1000)) as [Hdrop Hget]; [apply draw_rows_shape|].
  rewrite Hdrop, Hget in Hrun. cbv iota beta in Hrun. cbn [fst snd] in Hrun.
  change (train_test_split _ _ _ _ _) with split_of_generated in Hrun.
  destruct (after_generate_facts 1000 st) as (Hself & Hfiles & Hcalls).
  destruct (after_generate 1000 st) as [p0 s0]. cbn [fst snd] in *. subst p0.
  destruct split_of_generated as [[[[X_train X_test] y_train] y_test]|e];
    cbn [outcome] in Hrun; [|discriminate].
  unfold_steps Hrun.
  destruct (rf_fit run_hyperparams X_train y_train) as [f|e];
    simplify_run Hrun; [|discriminate].
  destruct (rf_predict f (OfFrame X_test)) as [y_pred|e];
    simplify_run Hrun; [|discriminate].
  destruct (accuracy_score y_test y_pred) as [accuracy|e];
    simplify_run Hrun; [|discriminate].
  destruct (classification_report_dict y_test y_pred) as [report|e];
    simplify_run Hrun; [|discriminate].
  destruct (confusion_matrix y_test y_pred) as [conf_matrix|e];
    simplify_run Hrun; [|discriminate].
  destruct (classification_report_text y_test y_pred) as [text|e];
    simplify_run Hrun; [|discriminate].
  destruct (os_open_w (path_join (model_dir (fst st)) "model.pkl") _ _) as [e|];
    cbv beta iota in Hrun; simplify_run Hrun; [discriminate|].
  destruct (joblib_dumps (ObjForest run_hyperparams (Some f))) as [data|e] eqn:Hdump;
    cbv beta iota in Hrun; simplify_run Hrun; [|discriminate].
  destruct (os_open_w (path_join (log_dir (fst st)) "metrics.json") _ _) as [e|];
    cbv beta iota in Hrun; simplify_run Hrun; [discriminate|].
  destruct (json_dumps _) as [json|e] eqn:Hjson;
    cbv beta iota in Hrun; simplify_run Hrun; [|discriminate].
  injection Hrun as <- <-.
  exists f, data, json. eexists.
  cbn [fst snd r_model_path r_metrics_path model metrics set_model set_metrics files
       set_files].
  rewrite Hfiles. repeat split; eauto.
Qed.

(** X18.  After a run that returns, the file at the returned model path
    holds the pickled model of the pipeline and the file at the returned
    metrics path holds the JSON text of its metrics, also when the model
    directory and the log directory are the same; no other file has
    changed. *)
Theorem run_writes_both_files (st st' : MLPipeline * Sys) (r : RunResult) :
  run st = (Ok r, st') ->
  r_model_path r <> r_metrics_path r /\
  exists data json,
    joblib_dumps (model (fst st')) = Ok data /\
    files (snd st') !! r_model_path r = Some data /\
    json_dumps (metrics (fst st')) = Ok json /\
    files (snd st') !! r_metrics_path r = Some (list_byte_of_string json) /\
    forall other, other <> r_model_path r -> other <> r_metrics_path r ->
      files (snd st') !! other = files (snd st) !! other.
Proof.
  intros Hrun.
  destruct (run_ok st st' r Hrun) as (f & data & json & ms & Hm & Hms & Hd & Hj & Hp & Hq & Hf).
  assert (Hne : r_model_path r <> r_metrics_path r).
  { rewrite Hp, Hq. apply run_paths_differ. }
  split; [exact Hne|]. exists data, json. rewrite Hm, Hms, Hf.
  split; [exact Hd|]. split.
  - rewrite !lookup_insert_ne by congruence. apply lookup_insert_eq.
  - split; [exact Hj|]. split; [apply lookup_insert_eq|].
    intros other H1 H2. rewrite !lookup_insert_ne by congruence. reflexivity.
Qed.

(** ** The inference helper *)

Ltac run_inference :=
  cbv beta delta [bind ret raise lift gets modify try_except] iota;
  cbn [fst snd Inference.model Inference.model_path].

(** X15.  [load_model] replaces the model only when the load succeeds:
    when it raises (the file is gone or no longer unpickles), the object
    still holds the model it had; when it returns, only the model field
    changed.  The files are never changed. *)
Theorem load_model_keeps_the_model_on_failure
    (self : Inference.ModelInference) (s : Sys) :
  let after := Inference.load_model (self, s) in
  snd (snd after) = s /\
  Inference.model_path (fst (snd after)) = Inference.model_path self /\
  match fst after with
  | Ok _ =>
      exists data,
        files s !! Inference.model_path self = Some data /\
        joblib_loads data = Ok (Inference.model (fst (snd after)))
  | Raise e => fst (snd after) = self
  end.
Proof.
  cbv zeta. unfold Inference.load_model, Inference.joblib_load. run_inference.
  destruct (files s !! Inference.model_path self) as [data|]; [|repeat split].
  destruct (joblib_loads data) as [m|e] eqn:Hl; cbn; [|repeat split].
  split; [reflexivity|]. split; [reflexivity|]. exists data. split; [reflexivity|exact Hl].
Qed.

(** X16.  Predicting changes neither the object nor the files.
    [predict_single] raises what [predict] raises on the array with
    that one row, raises [IndexError] when the model returns no
    prediction or no probabilities, and otherwise returns the first
    prediction and the first row of probabilities. *)
Theorem predict_single_takes_the_first
    (features : list float) (st : Inference.ModelInference * Sys) :
  snd (Inference.predict (OfArray [features]) st) = st /\
  snd (Inference.predict_single features st) = st /\
  match fst (Inference.predict (OfArray [features]) st) with
  | Raise e => fst (Inference.predict_single features st) = Raise e
  | Ok result =>
      match Inference.predictions result, Inference.probabilities result with
      | p :: _, q :: _ =>
          fst (Inference.predict_single features st) =
            Ok {| Inference.prediction := p; Inference.probability := q |}
      | _, _ =>
          exists e, fst (Inference.predict_single features st) = Raise e /\
                    exn_cls e = IndexError
      end
  end.
Proof.
  unfold Inference.predict_single, Inference.predict. run_inference.
  destruct (Inference.model (fst st)) as [|hp fitted|] eqn:Hm; run_inference.
  - repeat split.
  - generalize (obj_predict (ObjForest hp fitted) (OfArray [features])),
               (obj_predict_proba (ObjForest hp fitted) (OfArray [features])).
    intros [[|p ps]|e] [[|q qs]|e']; cbn; repeat split; eauto.
  - repeat split.
Qed.

(** X17.  From training to serving: after a run that returns, a
    [ModelInference] built on the returned model path loads, and on
    every input on which the pipeline's model predicts it returns the
    same predictions and probabilities. *)
Theorem run_then_inference_predicts_alike
    (st st' : MLPipeline * Sys) (r : RunResult) :
  joblib_roundtrip ->
  run st = (Ok r, st') ->
  exists inf s2,
    Inference.init (r_model_path r) (snd st') = (Ok inf, s2) /\
    forall X ps qs,
      obj_predict (model (fst st')) X = Ok ps ->
      obj_predict_proba (model (fst st')) X = Ok qs ->
      fst (Inference.predict X (inf, s2)) =
        Ok {| Inference.predictions := ps; Inference.probabilities := qs |}.
Proof.
  intros Hrt Hrun.
  destruct (run_ok st st' r Hrun) as (f & data & json & ms & Hm & Hms & Hd & Hj & Hp & Hq & Hf).
  assert (Hfile : files (snd st') !! r_model_path r = Some data).
  { assert (Hne : r_model_path r <> r_metrics_path r).
    { rewrite Hp, Hq. apply run_paths_differ. }
    rewrite Hf. rewrite !lookup_insert_ne by congruence. apply lookup_insert_eq. }
  destruct (Hrt _ _ Hd) as (m' & Hl & Hsame).
  unfold Inference.init, Inference.load_model, Inference.joblib_load. run_inference.
  rewrite Hfile, Hl. eexists _, _. split; [reflexivity|].
  intros X ps qs Hps Hqs. unfold Inference.predict. run_inference.
  rewrite Hm in Hps, Hqs.
  destruct (Hsame X) as [Hp' Hq']. rewrite <- Hp' in Hps. rewrite <- Hq' in Hqs.
  destruct m' as [|hp' f'|]; try discriminate Hps; rewrite Hps, Hqs; reflexivity.
Qed.

End Proofs.

(** ** Concrete runs *)

Import PipelineSamples.

#[local] Existing Instance sample_libs.


Lemma failed_training_discards_the_model_witness :
  fst (train_model two_rows [CInt 0] ∅ trained_pipeline) =
    Raise (Exn ValueError "Found input variables with inconsistent numbers of samples") /\
  fst (evaluate_model two_rows one_class
         (snd (train_model two_rows [CInt 0] ∅ trained_pipeline))) = Raise no_trees /\
  metrics (fst (snd (evaluate_model two_rows one_class
                       (snd (train_model two_rows [CInt 0] ∅ trained_pipeline))))) =
    metrics (fst trained_pipeline).
Proof.
  destruct (@failed_training_discards_the_model sample_libs two_rows [CInt 0] ∅
              trained_pipeline
              (Exn ValueError "Found input variables with inconsistent numbers of samples")
              eq_refl) as [Hraise Hafter].
  split; [exact Hraise|].
  exact (proj2 (Hafter two_rows one_class) no_trees eq_refl).
Defined.

Lemma sample_run_returns : returned (fst (run fresh_pipeline)) = true.
Proof. reflexivity. Qed.

Lemma run_writes_both_files_witness :
  exists r st',
    run fresh_pipeline = (Ok r, st') /\
    r_model_path r <> r_metrics_path r /\
    exists data json,
      joblib_dumps (model (fst st')) = Ok data /\
      files (snd st') !! r_model_path r = Some data /\
      json_dumps (metrics (fst st')) = Ok json /\
      files (snd st') !! r_metrics_path r = Some (list_byte_of_string json) /\
      forall other, other <> r_model_path r -> other <> r_metrics_path r ->
        files (snd st') !! other = files (snd fresh_pipeline) !! other.
Proof.
  pose proof sample_run_returns as Hok.
  destruct (run fresh_pipeline) as [[r|e] st'] eqn:Hrun; [|discriminate Hok].
  exists r, st'. split; [reflexivity|].
  exact (@run_writes_both_files sample_libs fresh_pipeline st' r Hrun).
Defined.

Lemma run_then_inference_predicts_alike_witness :
  exists r st' inf s2,
    run fresh_pipeline = (Ok r, st') /\
    Inference.init (r_model_path r) (snd st') = (Ok inf, s2) /\
    forall X ps qs,
      obj_predict (model (fst st')) X = Ok ps ->
      obj_predict_proba (model (fst st')) X = Ok qs ->
      fst (Inference.predict X (inf, s2)) =
        Ok {| Inference.predictions := ps; Inference.probabilities := qs |}.
Proof.
  pose proof sample_run_returns as Hok.
  destruct (run fresh_pipeline) as [[r|e] st'] eqn:Hrun; [|discriminate Hok].
  destruct (@run_then_inference_predicts_alike sample_libs fresh_pipeline st' r
              sample_joblib_roundtrip Hrun) as (inf & s2 & Hinit & Hsame).
  exists r, st', inf, s2. split; [reflexivity|]. split; assumption.
Defined.

End PipelineProps.

(* ===================================================================== *)
(** * Properties of the upload script *)
(* ===================================================================== *)

Module UploadProps.

Import Py UploadScript.

#[local] Arguments model_path : simpl never.
#[local] Arguments contains : simpl never.

Ltac run_script :=
  unfold main, upload, ensure_container, open_rb, request, print, try_except,
    bind, ret, raise, lift, gets, modify, set_account; cbn.

Section Proofs.

Context `{Azurite}.

(** X19. When [create_container] raises, the script goes on to the upload
    exactly when the text of the exception contains
    "ContainerAlreadyExists": then the model file is uploaded to the
    account as it was, and the script ends as that upload ends; any other
    exception ends the script, with nothing uploaded and the account
    untouched. *)
Theorem only_an_existing_container_is_forgiven
    (script_dir : string) (h : Host) (client : Client) (e : exn)
    (Hclient : from_connection_string connection_string = Ok client)
    (Hcreate : create_container client container_name (account h) = Raise e) :
  let (r, h') := main script_dir h in
  if contains "ContainerAlreadyExists" (exn_msg e)
  then In (ContainerExists container_name) (stdout h') /\
       forall data, disk h !! model_path script_dir = Some data ->
         match upload_blob client container_name blob_name data true (account h) with
         | Ok a' => r = Ok tt /\ account h' = a'
         | Raise e' => r = Raise e' /\ account h' = account h
         end
  else r = Raise e /\ account h' = account h /\
       sdk_calls h' = sdk_calls h ++ [(SdkConnect connection_string, None);
                                      (SdkCreateContainer container_name, Some e)].
Proof.
  run_script. rewrite Hclient. cbn. rewrite Hcreate. cbn.
  destruct (contains _ (exn_msg e)); cbn.
  - destruct (disk h !! model_path script_dir) as [data|] eqn:Hfile; cbn.
    + destruct (upload_blob client container_name blob_name data true (account h))
        as [a'|e'] eqn:Hup; cbn.
      * split.
        { rewrite !in_app_iff. cbn. tauto. }
        intros d [= <-]. rewrite Hup. auto.
      * split.
        { rewrite !in_app_iff. cbn. tauto. }
        intros d [= <-]. rewrite Hup. auto.
    + split.
      { rewrite !in_app_iff. cbn. tauto. }
      intros d [=].
  - rewrite <- app_assoc. auto.
Qed.

(** X20. A run of the script that ends without an exception has uploaded
    the bytes of the local model file as blob "model_v1.pkl" of container
    "models", overwriting: the account it leaves is the one that upload
    returned, on the account with the container created or, when the
    creation said it existed, on the account as it was.  It printed the
    success line and left the local files alone. *)
Theorem completed_script_has_uploaded_the_file
    (script_dir : string) (h h' : Host)
    (Hrun : main script_dir h = (Ok tt, h')) :
  exists client data a1,
    from_connection_string connection_string = Ok client /\
    disk h !! model_path script_dir = Some data /\
    (create_container client container_name (account h) = Ok a1 \/
     exists e, create_container client container_name (account h) = Raise e /\
               contains "ContainerAlreadyExists" (exn_msg e) = true /\
               a1 = account h) /\
    upload_blob client container_name blob_name data true a1 = Ok (account h') /\
    In Uploaded (stdout h') /\
    disk h' = disk h.
Proof.
  revert Hrun. run_script.
  destruct (from_connection_string connection_string) as [client|e0] eqn:Hclient;
    cbn; [|discriminate].
  destruct (create_container client container_name (account h)) as [a1|e] eqn:Hcreate; cbn.
  - destruct (disk h !! model_path script_dir) as [data|] eqn:Hfile; cbn; [|discriminate].
    destruct (upload_blob client container_name blob_name data true a1)
      as [a'|e'] eqn:Hup; cbn; [|discriminate].
    intros [= <-]. cbn.
    exists client, data, a1. repeat split; auto.
    rewrite !in_app_iff. cbn. tauto.
  - destruct (contains _ (exn_msg e)) eqn:Hmarker; cbn; [|discriminate].
    destruct (disk h !! model_path script_dir) as [data|] eqn:Hfile; cbn; [|discriminate].
    destruct (upload_blob client container_name blob_name data true (account h))
      as [a'|e'] eqn:Hup; cbn; [|discriminate].
    intros [= <-]. cbn.
    exists client, data, (account h). repeat split; eauto.
    rewrite !in_app_iff. cbn. tauto.
Qed.

(** X21. Without the local model file the script raises and uploads
    nothing: no upload request is sent and the success line is not
    printed.  The file is opened only after the container step, so when
    the client is made and the container is created the account keeps the
    new container and the exception is the [FileNotFoundError] of
    [open]. *)
Theorem missing_model_file_uploads_nothing
    (script_dir : string) (h : Host)
    (Hfile : disk h !! model_path script_dir = None) :
  let (r, h') := main script_dir h in
  (exists e, r = Raise e) /\
  (exists cs ls,
     sdk_calls h' = sdk_calls h ++ cs /\
     Forall (fun c => is_upload (fst c) = false) cs /\
     stdout h' = stdout h ++ ls /\
     ~ In Uploaded ls) /\
  forall client a1,
    from_connection_string connection_string = Ok client ->
    create_container client container_name (account h) = Ok a1 ->
    r = Raise (Exn FileNotFoundError (model_path script_dir)) /\ account h' = a1.
Proof.
  run_script.
  destruct (from_connection_string connection_string) as [client|e0] eqn:Hclient; cbn.
  - destruct (create_container client container_name (account h)) as [a1|e] eqn:Hcreate; cbn.
    + rewrite Hfile. cbn. split; [eauto|]. split.
      * eexists _, _. rewrite <- !app_assoc. cbn.
        split; [reflexivity|]. split; [repeat constructor|].
        split; [reflexivity|]. cbn. intros [?|[?|[?|[?|[]]]]]; discriminate.
      * intros c a [= <-]. rewrite Hcreate. intros [= <-]. auto.
    + destruct (contains _ (exn_msg e)); cbn.
      * rewrite Hfile. cbn. split; [eauto|]. split.
        -- eexists _, _. rewrite <- !app_assoc. cbn.
           split; [reflexivity|]. split; [repeat constructor|].
           split; [reflexivity|]. cbn. intros [?|[?|[?|[?|[]]]]]; discriminate.
        -- intros c a [= <-]. rewrite Hcreate. discriminate.
      * split; [eauto|]. split.
        -- eexists _, _. rewrite <- !app_assoc. cbn.
           split; [reflexivity|]. split; [repeat constructor|].
           split; [reflexivity|]. cbn. intros [?|[?|[]]]; discriminate.
        -- intros c a [= <-]. rewrite Hcreate. discriminate.
  - split; [eauto|]. split.
    + eexists _, _. split; [reflexivity|]. split; [repeat constructor|].
      split; [reflexivity|]. cbn. intros [?|[]]; discriminate.
    + intros c a. discriminate.
Qed.

End Proofs.

Import UploadSamples.

Lemma only_an_existing_container_is_forgiven_witness :
  In (ContainerExists "models")
     (stdout (snd (main "scripts"
                     (set_account {[ "models" := ∅ ]} sample_host)))).
Proof.
  pose proof (@only_an_existing_container_is_forgiven sample_azurite "scripts"
                (set_account {[ "models" := ∅ ]} sample_host) tt already_exists
                eq_refl eq_refl) as Hthm.
  destruct (main "scripts" (set_account {[ "models" := ∅ ]} sample_host)) as [r h'].
  exact (proj1 Hthm).
Defined.

Lemma completed_script_has_uploaded_the_file_witness :
  exists h', main "scripts" sample_host = (Ok tt, h') /\ In Uploaded (stdout h').
Proof.
  destruct (main "scripts" sample_host) as [r h'] eqn:Hrun.
  assert (Hr : r = Ok tt).
  { apply (f_equal fst) in Hrun. vm_compute in Hrun. congruence. }
  subst r. exists h'. split; [reflexivity|].
  destruct (@completed_script_has_uploaded_the_file sample_azurite "scripts" sample_host h' Hrun)
    as (client & data & a1 & _ & _ & _ & _ & Hprinted & _).
  exact Hprinted.
Defined.

Lemma missing_model_file_uploads_nothing_witness :
  fst (main "elsewhere" sample_host)
    = Raise (Exn FileNotFoundError (model_path "elsewhere")).
Proof.
  pose proof (@missing_model_file_uploads_nothing sample_azurite "elsewhere" sample_host
                eq_refl) as Hthm.
  destruct (main "elsewhere" sample_host) as [r h'].
  exact (proj1 (proj2 (proj2 Hthm) tt _ eq_refl eq_refl)).
Defined.

End UploadProps.
